(** * Image sampling of BLI_math_interp.hh

    A shallow embedding of the inline nearest samplers of
    [source/blender/blenlib/BLI_math_interp.hh] and of the helpers they call.

    - Texture coordinates are C++ [float]s: IEEE-754 binary32 values, taken
      from the standard library's [spec_float] at precision 24.
    - Pixel buffers and output arrays live in one flat memory addressed by
      element index; a sampler is a computation in a small state-and-error
      monad over that memory, so that overlapping pointers, reads past the
      end of the buffer and failed conversions are all visible.
    - The memory keeps a log of the addresses that were read and written. *)

From Stdlib Require Import ZArith Lia List Bool.
From Stdlib Require Import Floats.SpecFloat.
Import ListNotations.
Open Scope Z_scope.

(* ================================================================== *)
(** * Part I: definitions *)
(* ================================================================== *)

(** ** C++ [int], [int64_t] and [float] *)

Definition INT_MIN : Z := - 2 ^ 31.
Definition INT_MAX : Z := 2 ^ 31 - 1.
Definition INT64_MIN : Z := - 2 ^ 63.
Definition INT64_MAX : Z := 2 ^ 63 - 1.

Definition in_int (z : Z) : bool := (INT_MIN <=? z) && (z <=? INT_MAX).
Definition in_int64 (z : Z) : bool := (INT64_MIN <=? z) && (z <=? INT64_MAX).

(** A C++ [float]. *)
Definition float : Type := spec_float.

Module F32.

(** binary32: 24 bits of precision, infinities at exponent 128. *)
Definition prec : Z := 24.
Definition emax : Z := 128.

Definition add : float -> float -> float := SFadd prec emax.
Definition sub : float -> float -> float := SFsub prec emax.
Definition mul : float -> float -> float := SFmul prec emax.
Definition div : float -> float -> float := SFdiv prec emax.

(** [float(i)] for an integer [i]: round to nearest, ties to even. *)
Definition of_int (z : Z) : float := binary_normalize prec emax z 0 false.

Definition zero : float := S754_zero false.
Definition one : float := of_int 1.

(** The signed mantissa of a finite float. *)
Definition signed (s : bool) (m : positive) : Z :=
  if s then Z.neg m else Z.pos m.

(** [int(f)]: the fractional part is discarded (rounding toward zero); the
    conversion is undefined when the result does not fit in [int], and for
    infinities and NaN. *)
Definition to_int (f : float) : option Z :=
  match f with
  | S754_zero _ => Some 0
  | S754_finite s m e =>
      let t := if 0 <=? e then signed s m * 2 ^ e
               else Z.quot (signed s m) (2 ^ (- e)) in
      if in_int t then Some t else None
  | S754_infinity _ | S754_nan => None
  end.

(** The mathematical floor of a finite float, as an unbounded integer.
    This is the [floor] the documentation speaks of; the code never
    computes it. *)
Definition floor (f : float) : option Z :=
  match f with
  | S754_zero _ => Some 0
  | S754_finite s m e =>
      Some (if 0 <=? e then signed s m * 2 ^ e
            else signed s m / 2 ^ (- e))
  | S754_infinity _ | S754_nan => None
  end.

(** [floorf]: the largest integral float not above [f]. *)
Definition floorf (f : float) : float :=
  match f with
  | S754_finite s m e =>
      if 0 <=? e then f
      else match signed s m / 2 ^ (- e) with
           | 0 => S754_zero s
           | q => binary_normalize prec emax q 0 false
           end
  | _ => f
  end.

(** The literal [n / d] for two integers: the quotient, rounded once. *)
Definition of_ratio (n d : Z) : float := div (of_int n) (of_int d).

End F32.

(** ** Memory *)

Inductive fault : Type :=
| Undefined      (* undefined behaviour: bad conversion, overflow, bad access *)
| AssertFailed.  (* a BLI_assert that does not hold, in a debug build *)

Section Machine.

Context {V : Type}.

(** A memory cell is outside every object, allocated but never written, or
    holds a value. *)
Inductive cell : Type :=
| Free
| Uninit
| Init (v : V).

(** [brk] is the first address above the stack of locals; [reads] and
    [writes] log the accessed addresses, most recent first. *)
Record state : Type := mkState {
  heap : Z -> cell;
  brk : Z;
  reads : list Z;
  writes : list Z
}.

Inductive result (A : Type) : Type :=
| Ok (a : A) (st : state)
| Fault (f : fault).

Definition M (A : Type) : Type := state -> result A.

Definition ret {A : Type} (a : A) : M A := fun st => Ok A a st.

Definition fail {A : Type} (f : fault) : M A := fun _ => Fault A f.

Definition bind {A B : Type} (m : M A) (k : A -> M B) : M B :=
  fun st => match m st with
            | Ok _ a st' => k a st'
            | Fault _ f => Fault B f
            end.

(** A partial pure operation: [None] is undefined behaviour. *)
Definition defined {A : Type} (o : option A) : M A :=
  match o with
  | Some a => ret a
  | None => fail Undefined
  end.

Definition upd (h : Z -> cell) (a : Z) (c : cell) : Z -> cell :=
  fun a' => if a' =? a then c else h a'.

(** [p[0]] as an rvalue, for [p] at address [a]. *)
Definition load (a : Z) : M V :=
  fun st => match heap st a with
            | Init v => Ok V v (mkState (heap st) (brk st) (a :: reads st) (writes st))
            | Free | Uninit => Fault V Undefined
            end.

(** [p[0] = v], for [p] at address [a]. *)
Definition store (a : Z) (v : V) : M unit :=
  fun st => match heap st a with
            | Free => Fault unit Undefined
            | Uninit | Init _ =>
                Ok unit tt (mkState (upd (heap st) a (Init v)) (brk st)
                                    (reads st) (a :: writes st))
            end.

(** A local array of [n] elements: fresh cells at the top of the stack. *)
Definition pushed (n : Z) (st : state) : state :=
  mkState (fun a => if (brk st <=? a) && (a <? brk st + n) then Uninit
                    else heap st a)
          (brk st + n) (reads st) (writes st).

Definition alloca (n : Z) : M Z := fun st => Ok Z (brk st) (pushed n st).

(** The end of the lifetime of the topmost [n] cells. *)
Definition popped (n : Z) (st : state) : state :=
  mkState (fun a => if (brk st - n <=? a) && (a <? brk st) then Free
                    else heap st a)
          (brk st - n) (reads st) (writes st).

Definition release (n : Z) : M unit := fun st => Ok unit tt (popped n st).

(** The state once the four elements of a local at [res] have been read. *)
Definition read4 (res : Z) (s1 : state) : state :=
  mkState (heap s1) (brk s1)
          (res + 3 :: res + 2 :: res + 1 :: res + 0 :: reads s1) (writes s1).

(** Arithmetic on [int64_t]: signed overflow is undefined. *)
Definition checked64 (z : Z) : M Z :=
  if in_int64 z then ret z else fail Undefined.

End Machine.

Arguments cell V : clear implicits.
Arguments state V : clear implicits.
Arguments result V A : clear implicits.
Arguments M V A : clear implicits.
Arguments Ok {V A} a st.
Arguments Fault {V A} f.

Notation "x <- m ;; k" := (bind m (fun x => k))
  (at level 61, m at next level, right associativity).
Notation "m ;; k" := (bind m (fun _ => k))
  (at level 61, right associativity).

(** ** Helpers from headers that are not part of the sources at hand *)

(** Modelled from the spec: [math::clamp] of BLI_math_base.hh, which is not
    among the sources.  The spec writes [clamp(floor(coord), 0, extent-1)];
    this is the usual clamp of a value between a lower and an upper bound. *)
Definition clamp (a lo hi : Z) : Z :=
  if a <? lo then lo else if hi <? a then hi else a.

(** Modelled from the spec: [floored_fmod] of BLI_math_base.h, which is not
    among the sources.  The spec describes it as the floor-based (not
    truncating) modulo of the coordinate by the extent, that is
    [f - n * floor(f / n)]; its arguments and its result are [float]s at
    both call sites, so every operation is a single-precision one. *)
Definition floored_fmod (f n : float) : float :=
  F32.sub f (F32.mul n (F32.floorf (F32.div f n))).

(** The same modulo with the quotient's floor and the remainder computed
    exactly and rounded to single precision only once, at the end; used to
    show how little the observations below depend on the formula above. *)
Definition floored_fmod_rounded_once (f n : float) : float :=
  match f, n with
  | S754_finite sf mf ef, S754_finite sn mn en =>
      let e0 := Z.min ef en in
      let zf := F32.signed sf mf * 2 ^ (ef - e0) in
      let zn := F32.signed sn mn * 2 ^ (en - e0) in
      binary_normalize F32.prec F32.emax (zf - zn * (zf / zn)) e0 false
  | S754_zero _, S754_finite _ _ _ => f
  | _, _ => S754_nan
  end.

(** ** The samplers *)

(** A fixed 4-component value: [uchar4] or [float4]. *)
Record vec4 (V : Type) : Type := mk4 { c0 : V; c1 : V; c2 : V; c3 : V }.
Arguments mk4 {V} c0 c1 c2 c3.
Arguments c0 {V} v.
Arguments c1 {V} v.
Arguments c2 {V} v.
Arguments c3 {V} v.

Section Samplers.

(** [V] is the element type of the buffer ([uchar] or [float]) and [zero]
    its zero; [with_asserts] tells a debug build, where BLI_assert aborts
    when its condition fails, from a release build, where it is compiled
    out.  [width], [height] and [components] are [int]s; offsets into the
    buffer are computed in [int64_t], as in the source, and an overflow
    there is undefined behaviour. *)
Context {V : Type} (zero : V) (with_asserts : bool).

(** Modelled from the spec: [BLI_assert] of BLI_assert.h, which is not among
    the sources.  Spec 7: a defensive check of debug builds; the program is
    stopped when the condition does not hold, and nothing is checked in a
    release build. *)
Definition BLI_assert (c : bool) : M V unit :=
  if with_asserts && negb c then fail AssertFailed else ret tt.

(** [for (int i = 0; i < n; i++) body(i)], counted from [i]. *)
Fixpoint for_loop (k : nat) (i : Z) (body : Z -> M V unit) : M V unit :=
  match k with
  | O => ret tt
  | S k' => body i ;; for_loop k' (i + 1) body
  end.

Definition for_upto (n : Z) (body : Z -> M V unit) : M V unit :=
  for_loop (Z.to_nat n) 0 body.

(** [buffer + (int64_t(width) * y + x) * components] *)
Definition texel_ptr (buffer width y x components : Z) : M V Z :=
  row <- checked64 (width * y) ;;
  idx <- checked64 (row + x) ;;
  off <- checked64 (idx * components) ;;
  ret (buffer + off).

Definition interpolate_nearest_border_byte
    (buffer output width height : Z) (u v : float) : M V unit :=
  BLI_assert (negb (buffer =? 0)) ;;
  x <- defined (F32.to_int u) ;;
  y <- defined (F32.to_int v) ;;
  if (x <? 0) || (x >=? width) || (y <? 0) || (y >=? height) then
    store (output + 3) zero ;;
    store (output + 2) zero ;;
    store (output + 1) zero ;;
    store (output + 0) zero
  else
    data <- texel_ptr buffer width y x 4 ;;
    d0 <- load (data + 0) ;; store (output + 0) d0 ;;
    d1 <- load (data + 1) ;; store (output + 1) d1 ;;
    d2 <- load (data + 2) ;; store (output + 2) d2 ;;
    d3 <- load (data + 3) ;; store (output + 3) d3.

Definition interpolate_nearest_border_fl
    (buffer output width height components : Z) (u v : float) : M V unit :=
  BLI_assert (negb (buffer =? 0)) ;;
  x <- defined (F32.to_int u) ;;
  y <- defined (F32.to_int v) ;;
  if (x <? 0) || (x >=? width) || (y <? 0) || (y >=? height) then
    for_upto components (fun i => store (output + i) zero)
  else
    data <- texel_ptr buffer width y x components ;;
    for_upto components (fun i => d <- load (data + i) ;; store (output + i) d).

Definition interpolate_nearest_byte
    (buffer output width height : Z) (u v : float) : M V unit :=
  BLI_assert (negb (buffer =? 0)) ;;
  iu <- defined (F32.to_int u) ;;
  iv <- defined (F32.to_int v) ;;
  let x := clamp iu 0 (width - 1) in
  let y := clamp iv 0 (height - 1) in
  data <- texel_ptr buffer width y x 4 ;;
  d0 <- load (data + 0) ;; store (output + 0) d0 ;;
  d1 <- load (data + 1) ;; store (output + 1) d1 ;;
  d2 <- load (data + 2) ;; store (output + 2) d2 ;;
  d3 <- load (data + 3) ;; store (output + 3) d3.

Definition interpolate_nearest_fl
    (buffer output width height components : Z) (u v : float) : M V unit :=
  BLI_assert (negb (buffer =? 0)) ;;
  iu <- defined (F32.to_int u) ;;
  iv <- defined (F32.to_int v) ;;
  let x := clamp iu 0 (width - 1) in
  let y := clamp iv 0 (height - 1) in
  data <- texel_ptr buffer width y x components ;;
  for_upto components (fun i => d <- load (data + i) ;; store (output + i) d).

Definition interpolate_nearest_wrap_byte
    (buffer output width height : Z) (u v : float) : M V unit :=
  BLI_assert (negb (buffer =? 0)) ;;
  let u := floored_fmod u (F32.of_int width) in
  let v := floored_fmod v (F32.of_int height) in
  x <- defined (F32.to_int u) ;;
  y <- defined (F32.to_int v) ;;
  BLI_assert ((x >=? 0) && (y >=? 0) && (x <? width) && (y <? height)) ;;
  data <- texel_ptr buffer width y x 4 ;;
  d0 <- load (data + 0) ;; store (output + 0) d0 ;;
  d1 <- load (data + 1) ;; store (output + 1) d1 ;;
  d2 <- load (data + 2) ;; store (output + 2) d2 ;;
  d3 <- load (data + 3) ;; store (output + 3) d3.

Definition interpolate_nearest_wrap_fl
    (buffer output width height components : Z) (u v : float) : M V unit :=
  BLI_assert (negb (buffer =? 0)) ;;
  let u := floored_fmod u (F32.of_int width) in
  let v := floored_fmod v (F32.of_int height) in
  x <- defined (F32.to_int u) ;;
  y <- defined (F32.to_int v) ;;
  BLI_assert ((x >=? 0) && (y >=? 0) && (x <? width) && (y <? height)) ;;
  data <- texel_ptr buffer width y x components ;;
  for_upto components (fun i => d <- load (data + i) ;; store (output + i) d).

(** The overloads that return a [uchar4] or a [float4] all have the shape
    [T res; sampler(buffer, res, ...); return res;]. *)
Definition returning4 (sampler : Z -> M V unit) : M V (vec4 V) :=
  res <- alloca 4 ;;
  sampler res ;;
  r0 <- load (res + 0) ;;
  r1 <- load (res + 1) ;;
  r2 <- load (res + 2) ;;
  r3 <- load (res + 3) ;;
  release 4 ;;
  ret (mk4 r0 r1 r2 r3).

Definition interpolate_nearest_border_byte_uchar4
    (buffer width height : Z) (u v : float) : M V (vec4 V) :=
  returning4 (fun res => interpolate_nearest_border_byte buffer res width height u v).

Definition interpolate_nearest_border_fl_float4
    (buffer width height : Z) (u v : float) : M V (vec4 V) :=
  returning4 (fun res => interpolate_nearest_border_fl buffer res width height 4 u v).

Definition interpolate_nearest_byte_uchar4
    (buffer width height : Z) (u v : float) : M V (vec4 V) :=
  returning4 (fun res => interpolate_nearest_byte buffer res width height u v).

Definition interpolate_nearest_fl_float4
    (buffer width height : Z) (u v : float) : M V (vec4 V) :=
  returning4 (fun res => interpolate_nearest_fl buffer res width height 4 u v).

Definition interpolate_nearest_wrap_byte_uchar4
    (buffer width height : Z) (u v : float) : M V (vec4 V) :=
  returning4 (fun res => interpolate_nearest_wrap_byte buffer res width height u v).

Definition interpolate_nearest_wrap_fl_float4
    (buffer width height : Z) (u v : float) : M V (vec4 V) :=
  returning4 (fun res => interpolate_nearest_wrap_fl buffer res width height 4 u v).

End Samplers.

(** The six samplers that write through a caller-provided pointer, and the
    number of channels each one writes. *)
Inductive sampler : Type :=
| NearestBorderByte
| NearestBorderFl
| NearestByte
| NearestFl
| NearestWrapByte
| NearestWrapFl.

Definition channels (s : sampler) (components : Z) : Z :=
  match s with
  | NearestBorderByte | NearestByte | NearestWrapByte => 4
  | NearestBorderFl | NearestFl | NearestWrapFl => components
  end.

(** Texture coordinate wrapping modes, and the mode each sampler implements. *)
Inductive InterpWrapMode : Type :=
| Extend   (* sample coordinates are clamped to the edge *)
| Repeat   (* sample coordinates are wrapped around *)
| Border.  (* samples outside the image return transparent black *)

Definition mode (s : sampler) : InterpWrapMode :=
  match s with
  | NearestBorderByte | NearestBorderFl => Border
  | NearestByte | NearestFl => Extend
  | NearestWrapByte | NearestWrapFl => Repeat
  end.

Definition call {V : Type} (zero : V) (with_asserts : bool) (s : sampler)
    (buffer output width height components : Z) (u v : float) : M V unit :=
  match s with
  | NearestBorderByte =>
      interpolate_nearest_border_byte zero with_asserts buffer output width height u v
  | NearestBorderFl =>
      interpolate_nearest_border_fl zero with_asserts buffer output width height components u v
  | NearestByte =>
      interpolate_nearest_byte with_asserts buffer output width height u v
  | NearestFl =>
      interpolate_nearest_fl with_asserts buffer output width height components u v
  | NearestWrapByte =>
      interpolate_nearest_wrap_byte with_asserts buffer output width height u v
  | NearestWrapFl =>
      interpolate_nearest_wrap_fl with_asserts buffer output width height components u v
  end.

(** The overload of each sampler that returns a 4-component value. *)
Definition call4 {V : Type} (zero : V) (with_asserts : bool) (s : sampler)
    (buffer width height : Z) (u v : float) : M V (vec4 V) :=
  match s with
  | NearestBorderByte =>
      interpolate_nearest_border_byte_uchar4 zero with_asserts buffer width height u v
  | NearestBorderFl =>
      interpolate_nearest_border_fl_float4 zero with_asserts buffer width height u v
  | NearestByte =>
      interpolate_nearest_byte_uchar4 with_asserts buffer width height u v
  | NearestFl =>
      interpolate_nearest_fl_float4 with_asserts buffer width height u v
  | NearestWrapByte =>
      interpolate_nearest_wrap_byte_uchar4 with_asserts buffer width height u v
  | NearestWrapFl =>
      interpolate_nearest_wrap_fl_float4 with_asserts buffer width height u v
  end.

(** ** What a call is given, and what it leaves behind *)

Definition in_region (base n a : Z) : Prop := base <= a < base + n.

Definition initialized {V : Type} (st : state V) (base n : Z) : Prop :=
  forall a, in_region base n a -> exists v, heap st a = Init v.

Definition allocated {V : Type} (st : state V) (base n : Z) : Prop :=
  forall a, in_region base n a -> heap st a <> Free.

Definition separate (b1 n1 b2 n2 : Z) : Prop :=
  b1 + n1 <= b2 \/ b2 + n2 <= b1.

Definition stack_fresh {V : Type} (st : state V) : Prop :=
  forall a, brk st <= a -> heap st a = Free.

(** The calling contract of a sampler: a non-null buffer of
    [width * height * components] elements, positive dimensions, and an
    output array of [components] elements that does not overlap it. *)
Record valid_call {V : Type} (st : state V)
    (buffer output width height components : Z) : Prop := {
  vc_buffer : buffer <> 0;
  vc_width : 0 < width <= INT_MAX;
  vc_height : 0 < height <= INT_MAX;
  vc_components : 0 < components <= INT_MAX;
  vc_size : width * height * components <= INT64_MAX;
  vc_pixels : initialized st buffer (width * height * components);
  vc_output : allocated st output components;
  vc_separate : separate output components buffer (width * height * components)
}.

(** Address of channel 0 of texel [(x, y)]. *)
Definition texel (buffer width components x y : Z) : Z :=
  buffer + (width * y + x) * components.

(** [n] cells from [output] on all hold [z]; nothing was read, nothing else
    was written. *)
Record filled {V : Type} (z : V) (output n : Z) (st st' : state V) : Prop := {
  filled_cells : forall i, 0 <= i < n -> heap st' (output + i) = Init z;
  filled_frame : forall a, ~ in_region output n a -> heap st' a = heap st a;
  filled_brk : brk st' = brk st;
  filled_reads : reads st' = reads st;
  filled_writes : exists l, writes st' = l ++ writes st /\
                            forall a, In a l <-> in_region output n a
}.

(** [n] cells from [output] on hold what the [n] cells from [data] on held;
    exactly those were read, and nothing else was written. *)
Record copied {V : Type} (data output n : Z) (st st' : state V) : Prop := {
  copied_cells : forall i, 0 <= i < n -> heap st' (output + i) = heap st (data + i);
  copied_frame : forall a, ~ in_region output n a -> heap st' a = heap st a;
  copied_brk : brk st' = brk st;
  copied_reads : exists l, reads st' = l ++ reads st /\
                           forall a, In a l <-> in_region data n a;
  copied_writes : exists l, writes st' = l ++ writes st /\
                            forall a, In a l <-> in_region output n a
}.

(** What a nearest sampler does once its index arithmetic is done. *)
Inductive plan : Type :=
| Stop (f : fault)
| Fill
| Copy (data : Z).

Definition plan_ptr (buffer width y x components : Z) : plan :=
  if in_int64 (width * y) && in_int64 (width * y + x)
     && in_int64 ((width * y + x) * components)
  then Copy (texel buffer width components x y)
  else Stop Undefined.

Definition plan_border (with_asserts : bool)
    (buffer width height components : Z) (u v : float) : plan :=
  if with_asserts && (buffer =? 0) then Stop AssertFailed else
  match F32.to_int u, F32.to_int v with
  | Some x, Some y =>
      if (x <? 0) || (x >=? width) || (y <? 0) || (y >=? height) then Fill
      else plan_ptr buffer width y x components
  | _, _ => Stop Undefined
  end.

Definition plan_extend (with_asserts : bool)
    (buffer width height components : Z) (u v : float) : plan :=
  if with_asserts && (buffer =? 0) then Stop AssertFailed else
  match F32.to_int u, F32.to_int v with
  | Some iu, Some iv =>
      plan_ptr buffer width (clamp iv 0 (height - 1)) (clamp iu 0 (width - 1))
               components
  | _, _ => Stop Undefined
  end.

Definition plan_wrap (with_asserts : bool)
    (buffer width height components : Z) (u v : float) : plan :=
  if with_asserts && (buffer =? 0) then Stop AssertFailed else
  match F32.to_int (floored_fmod u (F32.of_int width)),
        F32.to_int (floored_fmod v (F32.of_int height)) with
  | Some x, Some y =>
      if with_asserts
         && negb ((x >=? 0) && (y >=? 0) && (x <? width) && (y <? height))
      then Stop AssertFailed
      else plan_ptr buffer width y x components
  | _, _ => Stop Undefined
  end.

Definition plan_of (with_asserts : bool) (s : sampler)
    (buffer width height components : Z) (u v : float) : plan :=
  match s with
  | NearestBorderByte => plan_border with_asserts buffer width height 4 u v
  | NearestBorderFl => plan_border with_asserts buffer width height components u v
  | NearestByte => plan_extend with_asserts buffer width height 4 u v
  | NearestFl => plan_extend with_asserts buffer width height components u v
  | NearestWrapByte => plan_wrap with_asserts buffer width height 4 u v
  | NearestWrapFl => plan_wrap with_asserts buffer width height components u v
  end.

(** The outcome [r] of a run from [st] carries out plan [p] on [n] cells. *)
Definition performed {V : Type} (zero : V) (p : plan) (output n : Z)
    (st : state V) (r : result V unit) : Prop :=
  match p with
  | Stop f => r = Fault f
  | Fill => exists st', r = Ok tt st' /\ filled zero output n st st'
  | Copy data => exists st', r = Ok tt st' /\ copied data output n st st'
  end.

(** A plan never reads outside the pixel buffer. *)
Definition plan_in_buffer (buffer size n : Z) (p : plan) : Prop :=
  match p with
  | Copy data => buffer <= data /\ data + n <= buffer + size
  | Stop _ | Fill => True
  end.

(** The contents of [n] cells from address [a] on. *)
Definition cells {V : Type} (st : state V) (a : Z) (n : nat) : list (cell V) :=
  map (fun i => heap st (a + Z.of_nat i)) (seq 0 n).

(** What is observed of a run: the fault, or the output cells and the logs. *)
Definition observe {V A : Type} (output : Z) (n : nat) (r : result V A)
  : fault + (list (cell V) * list Z * list Z) :=
  match r with
  | Ok _ st => inr (cells st output n, reads st, writes st)
  | Fault f => inl f
  end.


(** A computation stores only to addresses in [R], and leaves the stack of
    locals as deep as it found it. *)
Definition confined {V A : Type} (R : Z -> Prop) (m : M V A) : Prop :=
  forall st a st',
    m st = Ok a st' ->
    (forall x, ~ R x -> heap st' x = heap st x) /\ brk st' = brk st.



(** The fault, or the output cells alone. *)
Definition outcome {V A : Type} (output : Z) (n : nat) (r : result V A)
  : fault + list (cell V) :=
  match r with
  | Ok _ st => inr (cells st output n)
  | Fault f => inl f
  end.

(** ** Concrete images and coordinates *)

Definition uchar : Type := Z.

(** A memory holding a pixel buffer of [size] elements at [buffer], whose
    element at offset [k] is [pixel k], an output array of [n] elements at
    [output] that was never written, and nothing else; the stack starts at
    [top]. *)
Definition image {V : Type} (buffer size : Z) (pixel : Z -> V)
    (output n top : Z) : state V :=
  mkState (fun a => if (buffer <=? a) && (a <? buffer + size)
                    then Init (pixel (a - buffer))
                    else if (output <=? a) && (a <? output + n) then Uninit
                    else Free)
          top [] [].

(** A 4x4 byte image; the element at offset [k] holds [k + 1]. *)
Definition bytes_4x4 : state uchar := image 4096 64 (fun k => k + 1) 16 4 65536.

(** A 4x4 four-channel float image; the element at offset [k] holds [k + 1]. *)
Definition floats_4x4 : state float :=
  image 4096 64 (fun k => F32.of_int (k + 1)) 16 4 65536.

(** A byte image of one row of 524288 pixels. *)
Definition bytes_wide : state uchar :=
  image 4096 (524288 * 4) (fun k => k mod 256) 16 4 4194304.

Definition half : float := F32.of_ratio 1 2.              (* 0.5f *)
Definition minus_half : float := F32.of_ratio (-1) 2.     (* -0.5f *)
Definition hundredth : float := F32.of_ratio 1 100.       (* 0.01f *)
Definition minus_hundredth : float := F32.of_ratio (-1) 100.   (* -0.01f *)
Definition minus_tiny : float := F32.of_ratio (-1) 10000000000. (* -1e-10f *)



(** On a row of [w] pixels, u = -0.01 and u = w - 0.01 both select the last
    texel, of index [w - 1]. *)
Definition seamless_at (w : Z) : bool :=
  match F32.to_int (floored_fmod minus_hundredth (F32.of_int w)),
        F32.to_int (floored_fmod (F32.sub (F32.of_int w) hundredth) (F32.of_int w))
  with
  | Some a, Some b => (a =? w - 1) && (b =? w - 1)
  | _, _ => false
  end.

(** ** Further vocabulary *)

(** An image alone, without an output array: a non-null buffer of
    [width * height * components] elements and positive dimensions. *)
Record valid_image {V : Type} (st : state V)
    (buffer width height components : Z) : Prop := {
  vi_buffer : buffer <> 0;
  vi_width : 0 < width <= INT_MAX;
  vi_height : 0 < height <= INT_MAX;
  vi_components : 0 < components <= INT_MAX;
  vi_size : width * height * components <= INT64_MAX;
  vi_pixels : initialized st buffer (width * height * components)
}.

(** Two runs end alike: with the same fault, or with memories that hold the
    same values, the same stack, the same reads in the same order and the
    same set of written addresses. *)
Definition same_outcome {V A : Type} (r1 r2 : result V A) : Prop :=
  match r1, r2 with
  | Ok a1 s1, Ok a2 s2 =>
      a1 = a2 /\ (forall a, heap s1 a = heap s2 a) /\ brk s1 = brk s2 /\
      reads s1 = reads s2 /\ (forall a, In a (writes s1) <-> In a (writes s2))
  | Fault f1, Fault f2 => f1 = f2
  | _, _ => False
  end.

(* ================================================================== *)
(** * Part II: properties *)
(* ================================================================== *)

(** ** Truncation and floor *)




Lemma clamp_range (a hi : Z) : 0 <= hi -> 0 <= clamp a 0 hi <= hi.
Proof.
  intros Hhi. unfold clamp.
  destruct (Z.ltb_spec a 0); [lia|]. destruct (Z.ltb_spec hi a); lia.
Qed.

(** A float whose conversion to [int] is defined has a floor. *)
Lemma to_int_has_floor (f : float) (t : Z) :
  F32.to_int f = Some t -> exists fl, F32.floor f = Some fl.
Proof.
  destruct f; simpl; try discriminate; intros _; eexists; reflexivity.
Qed.

(** ** Running the monad *)

Section Run.

Context {V : Type}.
Implicit Types (st : state V).

Lemma bind_ok {A B : Type} (m : M V A) (k : A -> M V B) st a st' :
  m st = Ok a st' -> bind m k st = k a st'.
Proof. unfold bind. intros ->. reflexivity. Qed.

Lemma bind_fault {A B : Type} (m : M V A) (k : A -> M V B) st f :
  m st = Fault f -> bind m k st = Fault f.
Proof. unfold bind. intros ->. reflexivity. Qed.

Lemma bind_inv {A B : Type} (m : M V A) (k : A -> M V B) st b st' :
  bind m k st = Ok b st' ->
  exists a st1, m st = Ok a st1 /\ k a st1 = Ok b st'.
Proof.
  unfold bind. destruct (m st) as [a st1 | f]; [|discriminate].
  intros H. exists a, st1. split; [reflexivity | exact H].
Qed.

Lemma load_init a v st :
  heap st a = Init v ->
  load a st = Ok v (mkState (heap st) (brk st) (a :: reads st) (writes st)).
Proof. unfold load. intros ->. reflexivity. Qed.

Lemma store_allocated a v st :
  heap st a <> Free ->
  store a v st = Ok tt (mkState (upd (heap st) a (Init v)) (brk st)
                                (reads st) (a :: writes st)).
Proof. unfold store. destruct (heap st a); [congruence | reflexivity | reflexivity]. Qed.

Lemma upd_same (h : Z -> cell V) a c : upd h a c a = c.
Proof. unfold upd. rewrite Z.eqb_refl. reflexivity. Qed.

Lemma upd_other (h : Z -> cell V) a c a' : a' <> a -> upd h a c a' = h a'.
Proof. unfold upd. intros H. destruct (Z.eqb_spec a' a); [contradiction | reflexivity]. Qed.

(** The pointer arithmetic either overflows or yields the texel address. *)
Lemma texel_ptr_plan (buffer width y x components : Z) st :
  texel_ptr buffer width y x components st =
  match plan_ptr buffer width y x components with
  | Copy data => Ok data st
  | Stop f => Fault f
  | Fill => Fault Undefined
  end.
Proof.
  unfold texel_ptr, plan_ptr, bind, checked64, texel.
  destruct (in_int64 (width * y)); [|reflexivity]. simpl.
  destruct (in_int64 (width * y + x)); [|reflexivity]. simpl.
  destruct (in_int64 ((width * y + x) * components)); reflexivity.
Qed.

(** Inside the image the pointer arithmetic does not overflow. *)
Lemma plan_ptr_inside (buffer width height components x y : Z) :
  0 < width -> 0 < height -> 0 < components ->
  width * height * components <= INT64_MAX ->
  0 <= x < width -> 0 <= y < height ->
  plan_ptr buffer width y x components = Copy (texel buffer width components x y).
Proof.
  intros Hw Hh Hc Hs Hx Hy. unfold plan_ptr.
  assert (H1 : 0 <= width * y) by nia.
  assert (H2 : width * y + x + 1 <= width * height) by nia.
  assert (H3 : 0 <= (width * y + x) * components)
    by (apply Z.mul_nonneg_nonneg; lia).
  assert (H4 : (width * y + x + 1) * components <= width * height * components)
    by (apply Z.mul_le_mono_nonneg_r; lia).
  assert (H5 : width * height <= width * height * components) by nia.
  unfold in_int64, INT64_MIN, INT64_MAX in *.
  replace (_ && _ && _) with true; [reflexivity|].
  symmetry. rewrite !andb_true_iff, !Z.leb_le. lia.
Qed.

Lemma texel_in_buffer (buffer width height components x y : Z) :
  0 < width -> 0 < height -> 0 < components ->
  0 <= x < width -> 0 <= y < height ->
  buffer <= texel buffer width components x y /\
  texel buffer width components x y + components
    <= buffer + width * height * components.
Proof.
  intros Hw Hh Hc Hx Hy. unfold texel.
  assert (H1 : 0 <= width * y + x) by nia.
  assert (H2 : width * y + x + 1 <= width * height) by nia.
  assert (H3 : 0 <= (width * y + x) * components)
    by (apply Z.mul_nonneg_nonneg; lia).
  assert (H4 : (width * y + x + 1) * components <= width * height * components)
    by (apply Z.mul_le_mono_nonneg_r; lia).
  split; lia.
Qed.

End Run.

(** ** The two loops: zero fill and texel copy *)

Section Loops.

Context {V : Type}.
Implicit Types (st : state V).

Ltac region := unfold in_region in *; lia.

Lemma fill_loop (z : V) (output : Z) (k : nat) : forall i st,
  (forall j, i <= j < i + Z.of_nat k -> heap st (output + j) <> Free) ->
  exists st',
    for_loop k i (fun i => store (output + i) z) st = Ok tt st' /\
    (forall j, i <= j < i + Z.of_nat k -> heap st' (output + j) = Init z) /\
    (forall a, ~ in_region (output + i) (Z.of_nat k) a -> heap st' a = heap st a) /\
    brk st' = brk st /\
    reads st' = reads st /\
    exists l, writes st' = l ++ writes st /\
              forall a, In a l <-> in_region (output + i) (Z.of_nat k) a.
Proof.
  induction k as [|k IH]; intros i st Halloc.
  - exists st. simpl. repeat split; try reflexivity; try lia.
    exists []. split; [reflexivity|]. intros a. simpl. split; [tauto | region].
  - cbn [for_loop].
    rewrite (bind_ok _ _ _ _ _ (store_allocated (output + i) z st (Halloc i ltac:(lia)))).
    set (st1 := mkState _ _ _ _).
    destruct (IH (i + 1) st1) as (st' & Hrun & Hcells & Hframe & Hbrk & Hreads & l & Hl & Hin).
    { intros j Hj. subst st1. cbn [heap]. unfold upd.
      destruct (Z.eqb_spec (output + j) (output + i)); [discriminate|].
      apply Halloc. lia. }
    exists st'. split; [exact Hrun|]. repeat split.
    + intros j Hj. destruct (Z.eq_dec j i) as [-> | Hne].
      * rewrite Hframe by region. subst st1. cbn [heap]. apply upd_same.
      * apply Hcells. lia.
    + intros a Ha. rewrite Hframe by region. subst st1. cbn [heap].
      apply upd_other. region.
    + rewrite Hbrk. reflexivity.
    + rewrite Hreads. reflexivity.
    + exists (l ++ [output + i]). split.
      * rewrite Hl. subst st1. cbn [writes]. rewrite <- app_assoc. reflexivity.
      * intros a. rewrite in_app_iff, Hin. simpl. region.
Qed.

Lemma copy_loop (data output : Z) (k : nat) : forall i st,
  (forall j, i <= j < i + Z.of_nat k -> exists v, heap st (data + j) = Init v) ->
  (forall j, i <= j < i + Z.of_nat k -> heap st (output + j) <> Free) ->
  (forall j j', i <= j < i + Z.of_nat k -> i <= j' < i + Z.of_nat k ->
                data + j <> output + j') ->
  exists st',
    for_loop k i (fun i => d <- load (data + i) ;; store (output + i) d) st
      = Ok tt st' /\
    (forall j, i <= j < i + Z.of_nat k -> heap st' (output + j) = heap st (data + j)) /\
    (forall a, ~ in_region (output + i) (Z.of_nat k) a -> heap st' a = heap st a) /\
    brk st' = brk st /\
    (exists l, reads st' = l ++ reads st /\
               forall a, In a l <-> in_region (data + i) (Z.of_nat k) a) /\
    (exists l, writes st' = l ++ writes st /\
               forall a, In a l <-> in_region (output + i) (Z.of_nat k) a).
Proof.
  induction k as [|k IH]; intros i st Hinit Halloc Hsep.
  - exists st. simpl. repeat split; try reflexivity; try lia;
      exists []; (split; [reflexivity|]); intros a; simpl; (split; [tauto | region]).
  - cbn [for_loop].
    destruct (Hinit i ltac:(lia)) as [v Hv].
    assert (Hstep : (d <- load (data + i) ;; store (output + i) d) st
                    = Ok tt (mkState (upd (heap st) (output + i) (Init v)) (brk st)
                                     ((data + i) :: reads st)
                                     ((output + i) :: writes st))).
    { rewrite (bind_ok _ _ _ _ _ (load_init (data + i) v st Hv)).
      rewrite store_allocated; [reflexivity|].
      cbn [heap]. apply Halloc. lia. }
    rewrite (bind_ok _ _ _ _ _ Hstep). clear Hstep.
    set (st1 := mkState _ _ _ _).
    destruct (IH (i + 1) st1)
      as (st' & Hrun & Hcells & Hframe & Hbrk & (lr & Hlr & Hinr) & (lw & Hlw & Hinw)).
    { intros j Hj. subst st1. cbn [heap]. rewrite upd_other.
      - apply Hinit. lia.
      - apply Hsep; lia. }
    { intros j Hj. subst st1. cbn [heap]. unfold upd.
      destruct (Z.eqb_spec (output + j) (output + i)); [discriminate|].
      apply Halloc. lia. }
    { intros j j' Hj Hj'. apply Hsep; lia. }
    exists st'. split; [exact Hrun|]. repeat split.
    + intros j Hj. destruct (Z.eq_dec j i) as [-> | Hne].
      * rewrite Hframe by region. subst st1. cbn [heap].
        rewrite upd_same. symmetry. exact Hv.
      * rewrite Hcells by lia. subst st1. cbn [heap]. apply upd_other.
        apply Hsep; lia.
    + intros a Ha. rewrite Hframe by region. subst st1. cbn [heap].
      apply upd_other. region.
    + rewrite Hbrk. reflexivity.
    + exists (lr ++ [data + i]). split.
      * rewrite Hlr. subst st1. cbn [reads]. rewrite <- app_assoc. reflexivity.
      * intros a. rewrite in_app_iff, Hinr. simpl. region.
    + exists (lw ++ [output + i]). split.
      * rewrite Hlw. subst st1. cbn [writes]. rewrite <- app_assoc. reflexivity.
      * intros a. rewrite in_app_iff, Hinw. simpl. region.
Qed.

(** The loops over [n] channels, in the vocabulary of [filled] and [copied]. *)
Lemma fill_upto (z : V) (output n : Z) st :
  allocated st output n ->
  exists st', for_upto n (fun i => store (output + i) z) st = Ok tt st' /\
              filled z output n st st'.
Proof.
  intros Halloc. unfold for_upto.
  destruct (fill_loop z output (Z.to_nat n) 0 st)
    as (st' & Hrun & Hcells & Hframe & Hbrk & Hreads & l & Hl & Hin).
  { intros j Hj. apply Halloc. region. }
  exists st'. split; [exact Hrun|]. constructor.
  - intros i Hi. apply Hcells. lia.
  - intros a Ha. apply Hframe. region.
  - exact Hbrk.
  - exact Hreads.
  - exists l. split; [exact Hl|]. intros a. rewrite Hin. region.
Qed.

Lemma copy_upto (data output n : Z) st :
  initialized st data n -> allocated st output n -> separate data n output n ->
  exists st', for_upto n (fun i => d <- load (data + i) ;; store (output + i) d) st
                = Ok tt st' /\
              copied data output n st st'.
Proof.
  intros Hinit Halloc Hsep. unfold for_upto.
  destruct (copy_loop data output (Z.to_nat n) 0 st)
    as (st' & Hrun & Hcells & Hframe & Hbrk & (lr & Hlr & Hinr) & (lw & Hlw & Hinw)).
  { intros j Hj. apply Hinit. region. }
  { intros j Hj. apply Halloc. region. }
  { intros j j' Hj Hj'. unfold separate in Hsep. lia. }
  exists st'. split; [exact Hrun|]. constructor.
  - intros i Hi. apply Hcells. lia.
  - intros a Ha. apply Hframe. region.
  - exact Hbrk.
  - exists lr. split; [exact Hlr|]. intros a. rewrite Hinr. region.
  - exists lw. split; [exact Hlw|]. intros a. rewrite Hinw. region.
Qed.

(** The byte samplers spell the copy of four channels out. *)
Lemma copy4_unrolled (data output : Z) st :
  (d0 <- load (data + 0) ;; store (output + 0) d0 ;;
   d1 <- load (data + 1) ;; store (output + 1) d1 ;;
   d2 <- load (data + 2) ;; store (output + 2) d2 ;;
   d3 <- load (data + 3) ;; store (output + 3) d3) st
  = for_upto 4 (fun i => d <- load (data + i) ;; store (output + i) d) st.
Proof.
  unfold for_upto. change (Z.to_nat 4) with 4%nat. cbn [for_loop].
  change (0 + 1) with 1. change (1 + 1) with 2. change (2 + 1) with 3.
  unfold bind.
  destruct (load (data + 0) st) as [d0 s0|]; [|reflexivity].
  destruct (store (output + 0) d0 s0) as [[] s0'|]; [|reflexivity].
  destruct (load (data + 1) s0') as [d1 s1|]; [|reflexivity].
  destruct (store (output + 1) d1 s1) as [[] s1'|]; [|reflexivity].
  destruct (load (data + 2) s1') as [d2 s2|]; [|reflexivity].
  destruct (store (output + 2) d2 s2) as [[] s2'|]; [|reflexivity].
  destruct (load (data + 3) s2') as [d3 s3|]; [|reflexivity].
  destruct (store (output + 3) d3 s3) as [[] s3'|]; reflexivity.
Qed.

(** The byte border sampler writes its four zeros from the last channel to
    the first. *)
Lemma fill4_unrolled (z : V) (output : Z) st :
  allocated st output 4 ->
  exists st',
    (store (output + 3) z ;; store (output + 2) z ;;
     store (output + 1) z ;; store (output + 0) z) st = Ok tt st' /\
    filled z output 4 st st'.
Proof.
  intros Halloc.
  assert (H3 : heap st (output + 3) <> Free) by (apply Halloc; region).
  assert (H2 : heap st (output + 2) <> Free) by (apply Halloc; region).
  assert (H1 : heap st (output + 1) <> Free) by (apply Halloc; region).
  assert (H0 : heap st (output + 0) <> Free) by (apply Halloc; region).
  unfold bind.
  rewrite (store_allocated _ z st H3).
  rewrite store_allocated by (cbn [heap]; rewrite upd_other by lia; exact H2).
  rewrite store_allocated by (cbn [heap]; rewrite !upd_other by lia; exact H1).
  rewrite store_allocated by (cbn [heap]; rewrite !upd_other by lia; exact H0).
  eexists. split; [reflexivity|]. cbn [heap brk reads writes]. constructor; cbn [heap brk reads writes].
  - intros i Hi.
    assert (Hc : i = 0 \/ i = 1 \/ i = 2 \/ i = 3) by lia.
    destruct Hc as [-> | [-> | [-> | ->]]];
      repeat (first [ apply upd_same | rewrite upd_other by lia ]).
  - intros a Ha. rewrite !upd_other by region. reflexivity.
  - reflexivity.
  - reflexivity.
  - exists [output + 0; output + 1; output + 2; output + 3].
    split; [reflexivity|]. intros a. simpl. region.
Qed.

End Loops.

(** ** Every sampler carries out its plan *)

Section Plans.

Context {V : Type} (zero : V) (with_asserts : bool).
Implicit Types (st : state V).

Lemma plan_ptr_not_fill (buffer width y x components : Z) :
  plan_ptr buffer width y x components <> Fill.
Proof. unfold plan_ptr. destruct (_ && _); discriminate. Qed.

Lemma copy_tail_fl (buffer output width y x components : Z) st :
  allocated st output components ->
  (forall data, plan_ptr buffer width y x components = Copy data ->
                initialized st data components /\
                separate data components output components) ->
  performed zero (plan_ptr buffer width y x components) output components st
    ((data <- texel_ptr buffer width y x components ;;
      for_upto components (fun i => d <- load (data + i) ;; store (output + i) d)) st).
Proof.
  intros Halloc Hcopy.
  pose proof (texel_ptr_plan buffer width y x components st) as Hptr.
  destruct (plan_ptr buffer width y x components) as [f | | data] eqn:Hp.
  - rewrite (bind_fault _ _ _ _ Hptr). reflexivity.
  - exfalso. exact (plan_ptr_not_fill _ _ _ _ _ Hp).
  - rewrite (bind_ok _ _ _ _ _ Hptr).
    destruct (Hcopy data eq_refl) as [Hinit Hsep].
    exact (copy_upto data output components st Hinit Halloc Hsep).
Qed.

Lemma copy_tail_byte (buffer output width y x : Z) st :
  allocated st output 4 ->
  (forall data, plan_ptr buffer width y x 4 = Copy data ->
                initialized st data 4 /\ separate data 4 output 4) ->
  performed zero (plan_ptr buffer width y x 4) output 4 st
    ((data <- texel_ptr buffer width y x 4 ;;
      d0 <- load (data + 0) ;; store (output + 0) d0 ;;
      d1 <- load (data + 1) ;; store (output + 1) d1 ;;
      d2 <- load (data + 2) ;; store (output + 2) d2 ;;
      d3 <- load (data + 3) ;; store (output + 3) d3) st).
Proof.
  intros Halloc Hcopy.
  pose proof (texel_ptr_plan buffer width y x 4 st) as Hptr.
  destruct (plan_ptr buffer width y x 4) as [f | | data] eqn:Hp.
  - rewrite (bind_fault _ _ _ _ Hptr). reflexivity.
  - exfalso. exact (plan_ptr_not_fill _ _ _ _ _ Hp).
  - rewrite (bind_ok _ _ _ _ _ Hptr). rewrite copy4_unrolled.
    destruct (Hcopy data eq_refl) as [Hinit Hsep].
    exact (copy_upto data output 4 st Hinit Halloc Hsep).
Qed.

(** The null check at the head of every sampler. *)
Lemma assert_buffer {A : Type} (buffer : Z) (k : M V A) st :
  (BLI_assert with_asserts (negb (buffer =? 0)) ;; k) st =
  if with_asserts && (buffer =? 0) then Fault AssertFailed else k st.
Proof.
  unfold bind, BLI_assert. rewrite negb_involutive.
  destruct (with_asserts && (buffer =? 0)); reflexivity.
Qed.

Lemma defined_bind {A B : Type} (o : option A) (k : A -> M V B) st :
  (x <- defined o ;; k x) st =
  match o with Some a => k a st | None => Fault Undefined end.
Proof. destruct o; reflexivity. Qed.

Lemma call_performed (s : sampler)
    (buffer output width height components : Z) (u v : float) st :
  let n := channels s components in
  let p := plan_of with_asserts s buffer width height components u v in
  allocated st output n ->
  (forall data, p = Copy data -> initialized st data n /\ separate data n output n) ->
  performed zero p output n st
    (call zero with_asserts s buffer output width height components u v st).
Proof.
  destruct s; cbn [channels plan_of call]; intros Halloc Hcopy;
    unfold interpolate_nearest_border_byte, interpolate_nearest_border_fl,
           interpolate_nearest_byte, interpolate_nearest_fl,
           interpolate_nearest_wrap_byte, interpolate_nearest_wrap_fl,
           plan_border, plan_extend, plan_wrap in *;
    rewrite assert_buffer;
    (destruct (with_asserts && (buffer =? 0)); [reflexivity|]);
    rewrite defined_bind;
    match goal with
    | |- context [match F32.to_int ?a with _ => _ end] =>
        destruct (F32.to_int a) as [x|]; [|reflexivity]
    end;
    rewrite defined_bind;
    match goal with
    | |- context [match F32.to_int ?a with _ => _ end] =>
        destruct (F32.to_int a) as [y|]; [|reflexivity]
    end.
  - destruct ((x <? 0) || (x >=? width) || (y <? 0) || (y >=? height)).
    + exact (fill4_unrolled zero output st Halloc).
    + apply copy_tail_byte; assumption.
  - destruct ((x <? 0) || (x >=? width) || (y <? 0) || (y >=? height)).
    + exact (fill_upto zero output components st Halloc).
    + apply copy_tail_fl; assumption.
  - apply copy_tail_byte; assumption.
  - apply copy_tail_fl; assumption.
  - unfold bind at 1. unfold BLI_assert.
    destruct (with_asserts && negb _); [reflexivity|].
    apply copy_tail_byte; assumption.
  - unfold bind at 1. unfold BLI_assert.
    destruct (with_asserts && negb _); [reflexivity|].
    apply copy_tail_fl; assumption.
Qed.

End Plans.

(** ** What the plans are *)

Section PlanFacts.

Variables (with_asserts : bool) (buffer width height components : Z).
Hypothesis Hbuffer : buffer <> 0.
Hypothesis Hwidth : 0 < width.
Hypothesis Hheight : 0 < height.
Hypothesis Hcomponents : 0 < components.
Hypothesis Hsize : width * height * components <= INT64_MAX.

Lemma null_check_passes : with_asserts && (buffer =? 0) = false.
Proof.
  destruct (Z.eqb_spec buffer 0); [contradiction|]. apply andb_false_r.
Qed.

Lemma plan_border_outside (u v : float) (x y : Z) :
  F32.to_int u = Some x -> F32.to_int v = Some y ->
  x < 0 \/ width <= x \/ y < 0 \/ height <= y ->
  plan_border with_asserts buffer width height components u v = Fill.
Proof.
  intros Hx Hy Hout. unfold plan_border.
  rewrite null_check_passes, Hx, Hy.
  replace (_ || _ || _ || _) with true; [reflexivity|].
  symmetry. rewrite !orb_true_iff, !Z.ltb_lt, !Z.geb_le. tauto.
Qed.

Lemma plan_border_inside (u v : float) (x y : Z) :
  F32.to_int u = Some x -> F32.to_int v = Some y ->
  0 <= x < width -> 0 <= y < height ->
  plan_border with_asserts buffer width height components u v
  = Copy (texel buffer width components x y).
Proof.
  intros Hx Hy Hxr Hyr. unfold plan_border.
  rewrite null_check_passes, Hx, Hy.
  replace (_ || _ || _ || _) with false.
  - apply plan_ptr_inside with (height := height); assumption.
  - symmetry. rewrite !orb_false_iff, !Z.ltb_ge, Z.geb_leb, Z.geb_leb, !Z.leb_gt. lia.
Qed.

Lemma plan_extend_eq (u v : float) (iu iv : Z) :
  F32.to_int u = Some iu -> F32.to_int v = Some iv ->
  plan_extend with_asserts buffer width height components u v
  = Copy (texel buffer width components
                (clamp iu 0 (width - 1)) (clamp iv 0 (height - 1))).
Proof.
  intros Hu Hv. unfold plan_extend.
  rewrite null_check_passes, Hu, Hv.
  pose proof (clamp_range iu (width - 1) ltac:(lia)).
  pose proof (clamp_range iv (height - 1) ltac:(lia)).
  apply plan_ptr_inside with (height := height); lia.
Qed.

Lemma plan_wrap_inside (u v : float) (x y : Z) :
  F32.to_int (floored_fmod u (F32.of_int width)) = Some x ->
  F32.to_int (floored_fmod v (F32.of_int height)) = Some y ->
  0 <= x < width -> 0 <= y < height ->
  plan_wrap with_asserts buffer width height components u v
  = Copy (texel buffer width components x y).
Proof.
  intros Hx Hy Hxr Hyr. unfold plan_wrap.
  rewrite null_check_passes, Hx, Hy.
  replace (negb _) with false.
  - rewrite andb_false_r.
    apply plan_ptr_inside with (height := height); assumption.
  - symmetry. rewrite negb_false_iff, !andb_true_iff, !Z.geb_le, !Z.ltb_lt. lia.
Qed.

Lemma plan_ptr_in_buffer (x y : Z) :
  0 <= x < width -> 0 <= y < height ->
  plan_in_buffer buffer (width * height * components) components
    (plan_ptr buffer width y x components).
Proof.
  intros Hx Hy. unfold plan_ptr. destruct (_ && _); [|exact I].
  apply texel_in_buffer; assumption.
Qed.

Lemma plan_border_in_buffer (u v : float) :
  plan_in_buffer buffer (width * height * components) components
    (plan_border with_asserts buffer width height components u v).
Proof.
  unfold plan_border. destruct (with_asserts && _); [exact I|].
  destruct (F32.to_int u) as [x|]; [|exact I].
  destruct (F32.to_int v) as [y|]; [|exact I].
  destruct (_ || _ || _ || _) eqn:Hout; [exact I|].
  rewrite !orb_false_iff, !Z.ltb_ge, Z.geb_leb, Z.geb_leb, !Z.leb_gt in Hout.
  apply plan_ptr_in_buffer; lia.
Qed.

Lemma plan_extend_in_buffer (u v : float) :
  plan_in_buffer buffer (width * height * components) components
    (plan_extend with_asserts buffer width height components u v).
Proof.
  unfold plan_extend. destruct (with_asserts && _); [exact I|].
  destruct (F32.to_int u) as [iu|]; [|exact I].
  destruct (F32.to_int v) as [iv|]; [|exact I].
  pose proof (clamp_range iu (width - 1) ltac:(lia)).
  pose proof (clamp_range iv (height - 1) ltac:(lia)).
  apply plan_ptr_in_buffer; lia.
Qed.

(** In a debug build the assertion keeps the wrapped index inside. *)
Lemma plan_wrap_in_buffer (u v : float) :
  with_asserts = true ->
  plan_in_buffer buffer (width * height * components) components
    (plan_wrap with_asserts buffer width height components u v).
Proof.
  intros ->. unfold plan_wrap. destruct (true && _); [exact I|].
  destruct (F32.to_int _) as [x|]; [|exact I].
  destruct (F32.to_int _) as [y|]; [|exact I].
  destruct (negb _) eqn:Hin; [exact I|]. cbn [andb].
  rewrite negb_false_iff, !andb_true_iff, !Z.geb_le, !Z.ltb_lt in Hin.
  apply plan_ptr_in_buffer; lia.
Qed.

End PlanFacts.

(** Under the calling contract a plan that stays in the buffer can be
    carried out. *)
Lemma valid_call_copy {V : Type} (st : state V)
    (buffer output width height n : Z) (p : plan) :
  valid_call st buffer output width height n ->
  plan_in_buffer buffer (width * height * n) n p ->
  forall data, p = Copy data -> initialized st data n /\ separate data n output n.
Proof.
  intros Hvc Hp data ->. cbn [plan_in_buffer] in Hp.
  destruct Hvc as [_ _ _ _ _ Hpix _ Hsep]. split.
  - intros a Ha. apply Hpix. unfold in_region in *. lia.
  - unfold separate in *. lia.
Qed.

(** A border or extend sampler, called within its contract, carries out
    its plan. *)
Lemma call_valid {V : Type} (zero : V) (with_asserts : bool) (s : sampler)
    (buffer output width height components : Z) (u v : float) (st : state V) :
  let n := channels s components in
  let p := plan_of with_asserts s buffer width height components u v in
  valid_call st buffer output width height n ->
  plan_in_buffer buffer (width * height * n) n p ->
  performed zero p output n st
    (call zero with_asserts s buffer output width height components u v st).
Proof.
  intros n p Hvc Hp. apply call_performed.
  - exact (vc_output _ _ _ _ _ _ Hvc).
  - exact (valid_call_copy st buffer output width height n p Hvc Hp).
Qed.

Lemma plan_of_in_buffer (with_asserts : bool) (s : sampler)
    (buffer width height components : Z) (u v : float) :
  let n := channels s components in
  0 < width -> 0 < height -> 0 < n ->
  match mode s with
  | Repeat => with_asserts = true
  | Extend | Border => True
  end ->
  plan_in_buffer buffer (width * height * n) n
    (plan_of with_asserts s buffer width height components u v).
Proof.
  destruct s; cbn [channels plan_of mode]; intros Hw Hh Hn Ha;
    first [ apply plan_border_in_buffer
          | apply plan_extend_in_buffer
          | apply plan_wrap_in_buffer ]; assumption.
Qed.

(** ** Extend (clamp) mode *)

(** An extend-mode sampler called within its contract copies the texel at
    the clamped truncated coordinate. *)
Lemma extend_copies {V : Type} (zero : V) (with_asserts : bool) (s : sampler)
    (buffer output width height components : Z) (u v : float) (iu iv : Z)
    (st : state V) :
  mode s = Extend ->
  let n := channels s components in
  valid_call st buffer output width height n ->
  F32.to_int u = Some iu -> F32.to_int v = Some iv ->
  exists st',
    call zero with_asserts s buffer output width height components u v st
      = Ok tt st' /\
    copied (texel buffer width n (clamp iu 0 (width - 1)) (clamp iv 0 (height - 1)))
           output n st st'.
Proof.
  intros Hs n Hvc Hu Hv.
  pose proof (call_valid zero with_asserts s buffer output width height
                         components u v st) as Hrun.
  cbv zeta in Hrun. fold n in Hrun. specialize (Hrun Hvc).
  destruct Hvc as [Hb Hw Hh Hc Hsz _ _ _].
  assert (Hplan : plan_of with_asserts s buffer width height components u v
                  = Copy (texel buffer width n (clamp iu 0 (width - 1))
                                (clamp iv 0 (height - 1)))).
  { destruct s; try discriminate Hs; cbn [plan_of channels] in *;
      apply plan_extend_eq; (assumption || lia). }
  rewrite Hplan in Hrun. apply Hrun. cbn [plan_in_buffer].
  pose proof (clamp_range iu (width - 1) ltac:(lia)).
  pose proof (clamp_range iv (height - 1) ltac:(lia)).
  apply texel_in_buffer; lia.
Qed.



(** ** Border mode *)


(** With a truncated coordinate inside the image it copies that texel. *)
Lemma nearest_border_inside {V : Type} (zero : V) (with_asserts : bool)
    (s : sampler) (buffer output width height components : Z) (u v : float)
    (x y : Z) (st : state V) :
  mode s = Border ->
  let n := channels s components in
  valid_call st buffer output width height n ->
  F32.to_int u = Some x -> F32.to_int v = Some y ->
  0 <= x < width -> 0 <= y < height ->
  exists st',
    call zero with_asserts s buffer output width height components u v st
      = Ok tt st' /\
    copied (texel buffer width n x y) output n st st'.
Proof.
  intros Hs n Hvc Hx Hy Hxr Hyr.
  pose proof (call_valid zero with_asserts s buffer output width height
                         components u v st) as Hrun.
  cbv zeta in Hrun. fold n in Hrun. specialize (Hrun Hvc).
  destruct Hvc as [Hb Hw Hh Hc Hsz _ _ _].
  assert (Hplan : plan_of with_asserts s buffer width height components u v
                  = Copy (texel buffer width n x y)).
  { destruct s; try discriminate Hs; cbn [plan_of channels] in *;
      apply plan_border_inside; (assumption || lia). }
  rewrite Hplan in Hrun. apply Hrun. cbn [plan_in_buffer].
  apply texel_in_buffer; lia.
Qed.

(** A repeat-mode sampler whose wrapped index is inside the image copies
    that texel. *)
Lemma nearest_wrap_inside {V : Type} (zero : V) (with_asserts : bool)
    (s : sampler) (buffer output width height components : Z) (u v : float)
    (x y : Z) (st : state V) :
  mode s = Repeat ->
  let n := channels s components in
  valid_call st buffer output width height n ->
  F32.to_int (floored_fmod u (F32.of_int width)) = Some x ->
  F32.to_int (floored_fmod v (F32.of_int height)) = Some y ->
  0 <= x < width -> 0 <= y < height ->
  exists st',
    call zero with_asserts s buffer output width height components u v st
      = Ok tt st' /\
    copied (texel buffer width n x y) output n st st'.
Proof.
  intros Hs n Hvc Hx Hy Hxr Hyr.
  pose proof (call_valid zero with_asserts s buffer output width height
                         components u v st) as Hrun.
  cbv zeta in Hrun. fold n in Hrun. specialize (Hrun Hvc).
  destruct Hvc as [Hb Hw Hh Hc Hsz _ _ _].
  assert (Hplan : plan_of with_asserts s buffer width height components u v
                  = Copy (texel buffer width n x y)).
  { destruct s; try discriminate Hs; cbn [plan_of channels] in *;
      apply plan_wrap_inside; (assumption || lia). }
  rewrite Hplan in Hrun. apply Hrun. cbn [plan_in_buffer].
  apply texel_in_buffer; lia.
Qed.

(** ** The output is written in full *)





(** Computing the texel address touches nothing. *)
Lemma texel_ptr_pure {V : Type} (buffer width y x components data : Z)
    (st st' : state V) :
  texel_ptr buffer width y x components st = Ok data st' -> st' = st.
Proof.
  rewrite texel_ptr_plan. destruct (plan_ptr buffer width y x components);
    try discriminate. intros [= _ <-]. reflexivity.
Qed.









(** ** Stores are confined to the output cells *)

Section Confinement.

Context {V : Type}.
Implicit Types (st : state V) (R : Z -> Prop).

Lemma confined_ret {A : Type} R (a : A) : confined (V := V) R (ret a).
Proof. intros st a' st' [= _ <-]. split; reflexivity. Qed.

Lemma confined_fail {A : Type} R (f : fault) : confined (V := V) (A := A) R (fail f).
Proof. intros st a st' H. discriminate H. Qed.

Lemma confined_bind {A B : Type} R (m : M V A) (k : A -> M V B) :
  confined R m -> (forall a, confined R (k a)) -> confined R (bind m k).
Proof.
  intros Hm Hk st b st' Hrun.
  destruct (bind_inv m k st b st' Hrun) as (a & st1 & H1 & H2).
  destruct (Hm st a st1 H1) as [Hh1 Hb1].
  destruct (Hk a st1 b st' H2) as [Hh2 Hb2].
  split.
  - intros x Hx. rewrite (Hh2 x Hx). apply Hh1. exact Hx.
  - rewrite Hb2. exact Hb1.
Qed.

Lemma confined_defined {A : Type} R (o : option A) : confined (V := V) R (defined o).
Proof. destruct o; [apply confined_ret | apply confined_fail]. Qed.

Lemma confined_checked64 R (z : Z) : confined (V := V) R (checked64 z).
Proof. unfold checked64. destruct (in_int64 z); [apply confined_ret | apply confined_fail]. Qed.

Lemma confined_assert R (with_asserts c : bool) :
  confined (V := V) R (BLI_assert with_asserts c).
Proof.
  unfold BLI_assert. destruct (with_asserts && negb c);
    [apply confined_fail | apply confined_ret].
Qed.

Lemma confined_load R (a : Z) : confined (V := V) R (load a).
Proof.
  intros st v st'. unfold load. destruct (heap st a); try discriminate.
  intros [= _ <-]. split; reflexivity.
Qed.

Lemma confined_store R (a : Z) (v : V) : R a -> confined R (store a v).
Proof.
  intros Ha st u st'. unfold store.
  destruct (heap st a); try discriminate; intros [= _ <-]; cbn [heap brk];
    (split; [|reflexivity]); intros x Hx; apply upd_other; congruence.
Qed.

Lemma confined_texel_ptr R (buffer width y x components : Z) :
  confined (V := V) R (texel_ptr buffer width y x components).
Proof.
  unfold texel_ptr.
  repeat (apply confined_bind; [apply confined_checked64 | intros ?]).
  apply confined_ret.
Qed.

Lemma confined_for_loop R (body : Z -> M V unit) (k : nat) : forall i,
  (forall j, i <= j < i + Z.of_nat k -> confined R (body j)) ->
  confined R (for_loop k i body).
Proof.
  induction k as [|k IH]; intros i Hbody; cbn [for_loop].
  - apply confined_ret.
  - apply confined_bind.
    + apply Hbody. lia.
    + intros _. apply IH. intros j Hj. apply Hbody. lia.
Qed.

Lemma confined_for_upto R (body : Z -> M V unit) (n : Z) :
  (forall j, 0 <= j < n -> confined R (body j)) ->
  confined R (for_upto n body).
Proof.
  intros Hbody. apply confined_for_loop. intros j Hj. apply Hbody. lia.
Qed.

End Confinement.

Create HintDb confined.
#[export] Hint Resolve confined_ret confined_fail confined_defined
  confined_checked64 confined_assert confined_load confined_texel_ptr
  : confined.

Ltac confine :=
  repeat first
    [ apply confined_bind; [solve [auto with confined] | intros ?]
    | apply confined_store; unfold in_region; lia
    | apply confined_bind; [apply confined_store; unfold in_region; lia | intros ?]
    | apply confined_for_upto; intros ? ?
    | solve [auto with confined] ].

(** Every sampler stores to its output cells only. *)
Lemma call_confined {V : Type} (zero : V) (with_asserts : bool) (s : sampler)
    (buffer output width height components : Z) (u v : float) :
  confined (in_region output (channels s components))
    (call zero with_asserts s buffer output width height components u v).
Proof.
  destruct s; cbn [call channels];
    unfold interpolate_nearest_border_byte, interpolate_nearest_border_fl,
           interpolate_nearest_byte, interpolate_nearest_fl,
           interpolate_nearest_wrap_byte, interpolate_nearest_wrap_fl;
    cbv zeta; confine;
    try (match goal with |- confined _ (if ?c then _ else _) => destruct c end;
         confine).
Qed.

(** ** The overloads that return four components *)

Section Returning.

Context {V : Type}.
Implicit Types (st : state V).

Lemma returning4_run (sampler : Z -> M V unit) st :
  returning4 sampler st =
  match sampler (brk st) (pushed 4 st) with
  | Fault f => Fault f
  | Ok _ s1 =>
      match heap s1 (brk st + 0), heap s1 (brk st + 1),
            heap s1 (brk st + 2), heap s1 (brk st + 3) with
      | Init r0, Init r1, Init r2, Init r3 =>
          Ok (mk4 r0 r1 r2 r3) (popped 4 (read4 (brk st) s1))
      | _, _, _, _ => Fault Undefined
      end
  end.
Proof.
  unfold returning4, bind, alloca.
  destruct (sampler (brk st) (pushed 4 st)) as [[] s1 | f]; [|reflexivity].
  unfold load. cbn [heap].
  destruct (heap s1 (brk st + 0)); try reflexivity. cbn [heap brk reads writes].
  destruct (heap s1 (brk st + 1)); try reflexivity. cbn [heap brk reads writes].
  destruct (heap s1 (brk st + 2)); try reflexivity. cbn [heap brk reads writes].
  destruct (heap s1 (brk st + 3)); reflexivity.
Qed.

(** Below a fresh stack, pushing a local changes nothing. *)
Lemma pushed_below (n : Z) st (a : Z) :
  heap st a <> Free -> stack_fresh st -> heap (pushed n st) a = heap st a.
Proof.
  intros Ha Hfresh. cbn [pushed heap].
  destruct (Z.leb_spec (brk st) a) as [Hle | Hlt]; [|reflexivity].
  elim Ha. apply Hfresh. exact Hle.
Qed.

(** A confined sampler called through [returning4] on a fresh stack gives
    the memory back as it was. *)
Lemma returning4_restores (sampler : Z -> M V unit) st r st'' :
  (forall res, confined (in_region res 4) (sampler res)) ->
  stack_fresh st ->
  returning4 sampler st = Ok r st'' ->
  (forall a, heap st'' a = heap st a) /\ brk st'' = brk st.
Proof.
  intros Hconf Hfresh. rewrite returning4_run.
  destruct (sampler (brk st) (pushed 4 st)) as [[] s1 | f] eqn:Hrun; [|discriminate].
  destruct (Hconf (brk st) _ _ _ Hrun) as [Hframe Hbrk].
  destruct (heap s1 (brk st + 0)); try discriminate.
  destruct (heap s1 (brk st + 1)); try discriminate.
  destruct (heap s1 (brk st + 2)); try discriminate.
  destruct (heap s1 (brk st + 3)); try discriminate.
  intros [= _ <-]. cbn [popped read4 heap brk]. rewrite Hbrk. cbn [pushed brk].
  split; [|lia]. intros a.
  destruct (Z.leb_spec (brk st + 4 - 4) a) as [Hle | Hlt];
    destruct (Z.ltb_spec a (brk st + 4)) as [Hlt' | Hge]; cbn [andb].
  - symmetry. apply Hfresh. lia.
  - rewrite Hframe by (unfold in_region; lia). cbn [pushed heap].
    destruct (Z.leb_spec (brk st) a); destruct (Z.ltb_spec a (brk st + 4));
      cbn [andb]; try lia; reflexivity.
  - rewrite Hframe by (unfold in_region; lia). cbn [pushed heap].
    destruct (Z.leb_spec (brk st) a); destruct (Z.ltb_spec a (brk st + 4));
      cbn [andb]; try lia; reflexivity.
  - lia.
Qed.

End Returning.

Lemma call4_returning {V : Type} (zero : V) (with_asserts : bool) (s : sampler)
    (buffer width height : Z) (u v : float) :
  call4 zero with_asserts s buffer width height u v =
  returning4 (fun res => call zero with_asserts s buffer res width height 4 u v).
Proof. destruct s; reflexivity. Qed.

(** C8. No sampler mutates the pixel buffer.  A sampler that writes through
    a caller-provided pointer stores to its output entries and to nothing
    else: every other memory cell holds after the call what it held before,
    and so does every element of a pixel buffer that the output array does
    not overlap.  An overload that returns its four components leaves the
    whole memory as it was. *)
Theorem samplers_leave_buffer_unchanged {V : Type} (zero : V)
    (with_asserts : bool) (s : sampler)
    (buffer output width height components : Z) (u v : float) (st : state V) :
  let n := channels s components in
  (forall st',
     call zero with_asserts s buffer output width height components u v st
       = Ok tt st' ->
     (forall a, ~ in_region output n a -> heap st' a = heap st a) /\
     (separate output n buffer (width * height * n) ->
      forall a, in_region buffer (width * height * n) a -> heap st' a = heap st a))
  /\
  (forall r st'',
     stack_fresh st ->
     call4 zero with_asserts s buffer width height u v st = Ok r st'' ->
     forall a, heap st'' a = heap st a).
Proof.
  intros n. split.
  - intros st' Hrun.
    destruct (call_confined zero with_asserts s buffer output width height
                components u v st tt st' Hrun) as [Hframe _].
    fold n in Hframe. split; [exact Hframe|].
    intros Hsep a Ha. apply Hframe. unfold separate, in_region in *. lia.
  - intros r st'' Hfresh Hrun a. rewrite call4_returning in Hrun.
    refine (proj1 (returning4_restores _ st r st'' _ Hfresh Hrun) a).
    intros res.
    pose proof (call_confined zero with_asserts s buffer res width height 4 u v) as Hc.
    destruct s; exact Hc.
Qed.

Lemma channels_4 (s : sampler) : channels s 4 = 4.
Proof. destruct s; reflexivity. Qed.

(** What the pixel buffer holds lies below a fresh stack. *)
Lemma initialized_below {V : Type} (st : state V) (base n a : Z) :
  initialized st base n -> stack_fresh st -> in_region base n a -> a < brk st.
Proof.
  intros Hinit Hfresh Ha. destruct (Hinit a Ha) as [v Hv].
  destruct (Z_lt_dec a (brk st)) as [Hlt | Hge]; [exact Hlt|].
  rewrite (Hfresh a ltac:(lia)) in Hv. discriminate.
Qed.









(** ** The concrete images satisfy the calling contract *)

Lemma image_valid {V : Type} (buffer width height components : Z)
    (pixel : Z -> V) (output top : Z) :
  buffer <> 0 ->
  0 < width <= INT_MAX -> 0 < height <= INT_MAX -> 0 < components <= INT_MAX ->
  width * height * components <= INT64_MAX ->
  separate output components buffer (width * height * components) ->
  valid_call (image buffer (width * height * components) pixel output components top)
             buffer output width height components.
Proof.
  intros Hb Hw Hh Hc Hsz Hsep. constructor; try assumption.
  - intros a Ha. unfold in_region in Ha. cbn [image heap].
    destruct (Z.leb_spec buffer a); destruct (Z.ltb_spec a (buffer + width * height * components));
      cbn [andb]; try lia. eexists. reflexivity.
  - intros a Ha. unfold in_region in Ha. unfold separate in Hsep. cbn [image heap].
    destruct (Z.leb_spec buffer a); destruct (Z.ltb_spec a (buffer + width * height * components));
      cbn [andb]; try lia;
      destruct (Z.leb_spec output a); destruct (Z.ltb_spec a (output + components));
      cbn [andb]; try lia; discriminate.
Qed.

Lemma image_fresh {V : Type} (buffer size : Z) (pixel : Z -> V) (output n top : Z) :
  buffer + size <= top -> output + n <= top ->
  stack_fresh (image buffer size pixel output n top).
Proof.
  intros Hb Ho a Ha. cbn [image heap brk] in *.
  destruct (Z.leb_spec buffer a); destruct (Z.ltb_spec a (buffer + size));
    cbn [andb]; try lia;
    destruct (Z.leb_spec output a); destruct (Z.ltb_spec a (output + n));
    cbn [andb]; try lia; reflexivity.
Qed.

Lemma bytes_4x4_valid : valid_call bytes_4x4 4096 16 4 4 4.
Proof.
  apply (image_valid 4096 4 4 4); unfold INT_MAX, INT64_MAX, separate; lia.
Defined.

Lemma floats_4x4_valid : valid_call floats_4x4 4096 16 4 4 4.
Proof.
  apply (image_valid 4096 4 4 4); unfold INT_MAX, INT64_MAX, separate; lia.
Defined.

Lemma bytes_4x4_fresh : stack_fresh bytes_4x4.
Proof. apply image_fresh; lia. Defined.

Lemma floats_4x4_fresh : stack_fresh floats_4x4.
Proof. apply image_fresh; lia. Defined.




(** ** Border mode at the concrete coordinates *)

(** The scenario of the spec: a border sample at u = 5, v = 5 on a 4x4
    buffer is (0,0,0,0), for bytes and for floats, and reads nothing. *)
Example nearest_border_at_5_5 :
  observe 16 4 (interpolate_nearest_border_byte (0 : uchar) true 4096 16 4 4
                  (F32.of_int 5) (F32.of_int 5) bytes_4x4)
  = inr ([Init 0; Init 0; Init 0; Init 0], [], [16; 17; 18; 19]) /\
  observe 16 4 (interpolate_nearest_border_fl F32.zero true 4096 16 4 4 4
                  (F32.of_int 5) (F32.of_int 5) floats_4x4)
  = inr ([Init F32.zero; Init F32.zero; Init F32.zero; Init F32.zero],
         [], [19; 18; 17; 16]).
Proof. split; vm_compute; reflexivity. Qed.

(** C1, at u = -0.5, v = 0 on a 4x4 buffer.  floor(u) = -1 is negative, and
    the documentation of the sampler promises transparent black outside the
    image; but [int(u)] is 0, so the border samplers, byte and float, read
    the four channels of texel (0,0) from the buffer and return them. *)
Theorem nearest_border_at_minus_half :
  F32.floor minus_half = Some (-1) /\
  F32.to_int minus_half = Some 0 /\
  observe 16 4 (interpolate_nearest_border_byte (0 : uchar) true 4096 16 4 4
                  minus_half F32.zero bytes_4x4)
  = inr ([Init 1; Init 2; Init 3; Init 4],
         [4099; 4098; 4097; 4096], [19; 18; 17; 16]) /\
  observe 16 4 (interpolate_nearest_border_fl F32.zero true 4096 16 4 4 4
                  minus_half F32.zero floats_4x4)
  = inr ([Init (F32.of_int 1); Init (F32.of_int 2);
          Init (F32.of_int 3); Init (F32.of_int 4)],
         [4099; 4098; 4097; 4096], [19; 18; 17; 16]).
Proof. repeat split; vm_compute; reflexivity. Qed.

(** ** Repeat mode at the concrete coordinates *)

(** C10, at u = -1e-10, v = 0 on a 4x4 buffer.  The floored modulo of u by
    4.0f is [u + 4] rounded to single precision, which is 4.0f itself, so
    the truncated index is x = 4 = width.  In a debug build the in-range
    assertion fires; in a release build the sampler reads texel (0,1), and on
    the last row it reads past the end of the buffer.  The index is the same
    when the modulo is computed exactly and rounded once. *)
Theorem nearest_wrap_index_reaches_width :
  F32.to_int (floored_fmod minus_tiny (F32.of_int 4)) = Some 4 /\
  F32.to_int (floored_fmod_rounded_once minus_tiny (F32.of_int 4)) = Some 4 /\
  outcome 16 4 (interpolate_nearest_wrap_byte (V := uchar) true 4096 16 4 4
                  minus_tiny F32.zero bytes_4x4) = inl AssertFailed /\
  outcome 16 4 (interpolate_nearest_wrap_fl true 4096 16 4 4 4
                  minus_tiny F32.zero floats_4x4) = inl AssertFailed /\
  observe 16 4 (interpolate_nearest_wrap_byte (V := uchar) false 4096 16 4 4
                  minus_tiny F32.zero bytes_4x4)
  = inr ([Init 17; Init 18; Init 19; Init 20],
         [4115; 4114; 4113; 4112], [19; 18; 17; 16]) /\
  outcome 16 4 (interpolate_nearest_wrap_byte (V := uchar) false 4096 16 4 4
                  minus_tiny (F32.of_int 3) bytes_4x4) = inl Undefined.
Proof. repeat split; vm_compute; reflexivity. Qed.

(** C2, on a row of 524288 pixels.  At u = -0.01 the floored modulo is
    [524288 - 0.01] rounded to single precision, which is 524288.0f: the
    index is the width, not width - 1; the assertion fires in a debug build
    and the read leaves the buffer in a release build.  At u = width - 0.01,
    which as a float is 524288.0f as well, the index is 0 and the sample is
    the first texel of the row. *)
Theorem nearest_wrap_not_seamless_on_wide_row :
  F32.to_int (floored_fmod minus_hundredth (F32.of_int 524288)) = Some 524288 /\
  F32.to_int (floored_fmod_rounded_once minus_hundredth (F32.of_int 524288))
  = Some 524288 /\
  F32.sub (F32.of_int 524288) hundredth = F32.of_int 524288 /\
  outcome 16 4 (interpolate_nearest_wrap_byte (V := uchar) true 4096 16 524288 1
                  minus_hundredth F32.zero bytes_wide) = inl AssertFailed /\
  outcome 16 4 (interpolate_nearest_wrap_byte (V := uchar) false 4096 16 524288 1
                  minus_hundredth F32.zero bytes_wide) = inl Undefined /\
  outcome 16 4 (interpolate_nearest_wrap_byte (V := uchar) true 4096 16 524288 1
                  (F32.sub (F32.of_int 524288) hundredth) F32.zero bytes_wide)
  = inr [Init 0; Init 1; Init 2; Init 3].
Proof. repeat split; vm_compute; reflexivity. Qed.

(** On narrower images the wrap at u = -0.01 is seamless. *)

Lemma nearest_wrap_seamless_up_to_2048 (w : Z) :
  1 <= w <= 2048 -> seamless_at w = true.
Proof.
  intros Hw.
  assert (Hall : forallb seamless_at (map Z.of_nat (seq 1 2048)) = true)
    by (vm_compute; reflexivity).
  rewrite forallb_forall in Hall. apply Hall.
  apply in_map_iff. exists (Z.to_nat w). split; [lia|].
  apply in_seq. lia.
Qed.

(** ** The theorems at concrete calls *)





(** C8 on the 4x4 byte image: after an extend-mode sample at (1, 2) the 64
    elements of the buffer are what they were. *)
Lemma samplers_leave_buffer_unchanged_witness :
  separate 16 4 4096 (4 * 4 * 4) /\
  exists st',
    call (0 : uchar) true NearestByte 4096 16 4 4 4
         (F32.of_int 1) (F32.of_int 2) bytes_4x4 = Ok tt st' /\
    forall a, in_region 4096 (4 * 4 * 4) a -> heap st' a = heap bytes_4x4 a.
Proof.
  split; [unfold separate; lia|].
  destruct (extend_copies (0 : uchar) true NearestByte 4096 16 4 4 4
              (F32.of_int 1) (F32.of_int 2) 1 2 bytes_4x4
              eq_refl bytes_4x4_valid eq_refl eq_refl)
    as (st' & Hrun & _).
  exists st'. split; [exact Hrun|].
  apply (proj2 (proj1 (samplers_leave_buffer_unchanged (0 : uchar) true NearestByte
                         4096 16 4 4 4 (F32.of_int 1) (F32.of_int 2) bytes_4x4)
                      st' Hrun)).
  unfold separate. cbn [channels]. lia.
Defined.



(** ** Flat images *)

(** On an image whose texels all hold the channels [colour], a nearest
    sampler that copies a texel of the image returns [colour].  With
    [nearest_border_inside], [extend_copies] and [nearest_wrap_inside] this
    covers the three nearest samplers, exactly. *)
Lemma copied_texel_of_flat_image {V : Type} (colour : Z -> V)
    (buffer output width height n x y : Z) (st st' : state V) :
  (forall x y i, 0 <= x < width -> 0 <= y < height -> 0 <= i < n ->
                 heap st (texel buffer width n x y + i) = Init (colour i)) ->
  0 <= x < width -> 0 <= y < height ->
  copied (texel buffer width n x y) output n st st' ->
  forall i, 0 <= i < n -> heap st' (output + i) = Init (colour i).
Proof.
  intros Hflat Hx Hy Hc i Hi.
  rewrite (copied_cells _ _ _ _ _ Hc i Hi). apply Hflat; assumption.
Qed.

(* ================================================================== *)
(** * Part III: further properties of the samplers *)
(* ================================================================== *)

(** ** Border mode, by the truncated coordinate *)

(** X1. A border sampler, byte or float, whose truncated coordinate
    (int(u), int(v)) is inside the image returns: the output receives the
    channels of texel (int(u), int(v)), exactly the cells of that texel are
    read, and nothing but the output is written. *)
Theorem border_sample_inside_copies_texel {V : Type} (zero : V)
    (with_asserts : bool) (s : sampler)
    (buffer output width height components : Z) (u v : float) (x y : Z)
    (st : state V) :
  mode s = Border ->
  valid_call st buffer output width height (channels s components) ->
  F32.to_int u = Some x -> F32.to_int v = Some y ->
  0 <= x < width -> 0 <= y < height ->
  exists st',
    call zero with_asserts s buffer output width height components u v st
      = Ok tt st' /\
    copied (texel buffer width (channels s components) x y)
           output (channels s components) st st'.
Proof.
  intros Hs Hvc Hx Hy Hxr Hyr.
  exact (nearest_border_inside zero with_asserts s buffer output width height
           components u v x y st Hs Hvc Hx Hy Hxr Hyr).
Qed.

Lemma border_sample_inside_copies_texel_witness :
  valid_call bytes_4x4 4096 16 4 4 4 /\
  F32.to_int (F32.of_int 1) = Some 1 /\ F32.to_int (F32.of_int 2) = Some 2 /\
  exists st',
    call (0 : uchar) true NearestBorderByte 4096 16 4 4 4
         (F32.of_int 1) (F32.of_int 2) bytes_4x4 = Ok tt st' /\
    copied (texel 4096 4 4 1 2) 16 4 bytes_4x4 st'.
Proof.
  split; [exact bytes_4x4_valid|]. split; [reflexivity|]. split; [reflexivity|].
  apply (border_sample_inside_copies_texel (0 : uchar) true NearestBorderByte
           4096 16 4 4 4 (F32.of_int 1) (F32.of_int 2) 1 2 bytes_4x4
           eq_refl bytes_4x4_valid eq_refl eq_refl); lia.
Defined.

(** A border sampler outside the image needs an output array and nothing
    else. *)
Lemma border_outside_fills {V : Type} (zero : V) (with_asserts : bool)
    (s : sampler) (buffer output width height components : Z) (u v : float)
    (x y : Z) (st : state V) :
  mode s = Border ->
  buffer <> 0 ->
  allocated st output (channels s components) ->
  F32.to_int u = Some x -> F32.to_int v = Some y ->
  x < 0 \/ width <= x \/ y < 0 \/ height <= y ->
  exists st',
    call zero with_asserts s buffer output width height components u v st
      = Ok tt st' /\
    filled zero output (channels s components) st st'.
Proof.
  intros Hs Hb Halloc Hx Hy Hout.
  pose proof (call_performed zero with_asserts s buffer output width height
                components u v st) as Hrun.
  cbv zeta in Hrun.
  assert (Hplan : plan_of with_asserts s buffer width height components u v = Fill).
  { destruct s; try discriminate Hs; cbn [plan_of];
      apply plan_border_outside with (x := x) (y := y); assumption. }
  rewrite Hplan in Hrun. apply Hrun; [exact Halloc | discriminate].
Qed.

(** X2. A border sampler, byte or float, whose truncated coordinate is
    outside the image writes zero to every channel of the output and
    touches nothing else: it reads no memory at all, whatever the buffer
    pointer points to and whatever the dimensions are. *)
Theorem border_sample_outside_is_zero {V : Type} (zero : V)
    (with_asserts : bool) (s : sampler)
    (buffer output width height components : Z) (u v : float) (x y : Z)
    (st : state V) :
  mode s = Border ->
  buffer <> 0 ->
  allocated st output (channels s components) ->
  F32.to_int u = Some x -> F32.to_int v = Some y ->
  x < 0 \/ width <= x \/ y < 0 \/ height <= y ->
  exists st',
    call zero with_asserts s buffer output width height components u v st
      = Ok tt st' /\
    filled zero output (channels s components) st st'.
Proof.
  intros Hs Hb Halloc Hx Hy Hout.
  exact (border_outside_fills zero with_asserts s buffer output width height
           components u v x y st Hs Hb Halloc Hx Hy Hout).
Qed.

Lemma border_sample_outside_is_zero_witness :
  allocated floats_4x4 16 4 /\
  F32.to_int (F32.of_int (-1)) = Some (-1) /\
  exists st',
    call F32.zero true NearestBorderFl 4096 16 4 4 4
         (F32.of_int (-1)) (F32.of_int 2) floats_4x4 = Ok tt st' /\
    filled F32.zero 16 4 floats_4x4 st'.
Proof.
  split; [exact (vc_output _ _ _ _ _ _ floats_4x4_valid)|].
  split; [reflexivity|].
  apply (border_sample_outside_is_zero F32.zero true NearestBorderFl
           4096 16 4 4 4 (F32.of_int (-1)) (F32.of_int 2) (-1) 2 floats_4x4
           eq_refl ltac:(lia) (vc_output _ _ _ _ _ _ floats_4x4_valid)
           eq_refl eq_refl).
  lia.
Defined.

(** X3. On an image of no width or no height a border sampler returns
    transparent black for every coordinate that converts to [int], and
    reads nothing. *)
Theorem border_sample_of_empty_image_is_zero {V : Type} (zero : V)
    (with_asserts : bool) (s : sampler)
    (buffer output width height components : Z) (u v : float) (x y : Z)
    (st : state V) :
  mode s = Border ->
  buffer <> 0 ->
  width <= 0 \/ height <= 0 ->
  allocated st output (channels s components) ->
  F32.to_int u = Some x -> F32.to_int v = Some y ->
  exists st',
    call zero with_asserts s buffer output width height components u v st
      = Ok tt st' /\
    filled zero output (channels s components) st st'.
Proof.
  intros Hs Hb Hempty Halloc Hx Hy.
  apply (border_outside_fills zero with_asserts s buffer output width height
           components u v x y st Hs Hb Halloc Hx Hy).
  lia.
Qed.

Lemma border_sample_of_empty_image_is_zero_witness :
  allocated bytes_4x4 16 4 /\
  exists st',
    call (0 : uchar) true NearestBorderByte 4096 16 0 4 4
         (F32.of_int 0) (F32.of_int 0) bytes_4x4 = Ok tt st' /\
    filled (0 : uchar) 16 4 bytes_4x4 st'.
Proof.
  split; [exact (vc_output _ _ _ _ _ _ bytes_4x4_valid)|].
  apply (border_sample_of_empty_image_is_zero (0 : uchar) true NearestBorderByte
           4096 16 0 4 4 (F32.of_int 0) (F32.of_int 0) 0 0 bytes_4x4
           eq_refl ltac:(lia) ltac:(lia) (vc_output _ _ _ _ _ _ bytes_4x4_valid)
           eq_refl eq_refl).
Defined.

(** ** The wrap mode only matters outside the image *)

(** X4. Inside the image the border and the extend samplers agree: for a
    truncated coordinate (int(u), int(v)) inside the image, a border sampler
    and an extend sampler of the same channel count, run from the same
    state, both return and leave the same values in every memory cell. *)
Theorem border_and_extend_agree_inside {V : Type} (zero : V)
    (with_asserts : bool) (sb se : sampler)
    (buffer output width height components : Z) (u v : float) (x y : Z)
    (st : state V) :
  mode sb = Border -> mode se = Extend ->
  channels sb components = channels se components ->
  valid_call st buffer output width height (channels sb components) ->
  F32.to_int u = Some x -> F32.to_int v = Some y ->
  0 <= x < width -> 0 <= y < height ->
  exists stb ste,
    call zero with_asserts sb buffer output width height components u v st
      = Ok tt stb /\
    call zero with_asserts se buffer output width height components u v st
      = Ok tt ste /\
    forall a, heap stb a = heap ste a.
Proof.
  intros Hb He Hn Hvc Hx Hy Hxr Hyr.
  destruct (nearest_border_inside zero with_asserts sb buffer output width
              height components u v x y st Hb Hvc Hx Hy Hxr Hyr)
    as (stb & Hrunb & Hcb).
  rewrite Hn in Hvc.
  destruct (extend_copies zero with_asserts se buffer output width height
              components u v x y st He Hvc Hx Hy) as (ste & Hrune & Hce).
  cbv zeta in Hcb, Hce. rewrite Hn in Hcb.
  assert (Hcx : clamp x 0 (width - 1) = x).
  { unfold clamp. destruct (Z.ltb_spec x 0); [lia|].
    destruct (Z.ltb_spec (width - 1) x); lia. }
  assert (Hcy : clamp y 0 (height - 1) = y).
  { unfold clamp. destruct (Z.ltb_spec y 0); [lia|].
    destruct (Z.ltb_spec (height - 1) y); lia. }
  rewrite Hcx, Hcy in Hce.
  exists stb, ste. split; [exact Hrunb|]. split; [exact Hrune|].
  intros a. set (n := channels se components) in *.
  destruct (Z_le_dec output a) as [Hlo|Hlo];
    [destruct (Z_lt_dec a (output + n)) as [Hhi|Hhi]|].
  - replace a with (output + (a - output)) by lia.
    rewrite (copied_cells _ _ _ _ _ Hcb) by lia.
    rewrite (copied_cells _ _ _ _ _ Hce) by lia. reflexivity.
  - rewrite (copied_frame _ _ _ _ _ Hcb) by (unfold in_region; lia).
    rewrite (copied_frame _ _ _ _ _ Hce) by (unfold in_region; lia). reflexivity.
  - rewrite (copied_frame _ _ _ _ _ Hcb) by (unfold in_region; lia).
    rewrite (copied_frame _ _ _ _ _ Hce) by (unfold in_region; lia). reflexivity.
Qed.

Lemma border_and_extend_agree_inside_witness :
  valid_call floats_4x4 4096 16 4 4 4 /\
  exists stb ste,
    call F32.zero true NearestBorderFl 4096 16 4 4 4
         (F32.of_int 3) half floats_4x4 = Ok tt stb /\
    call F32.zero true NearestFl 4096 16 4 4 4
         (F32.of_int 3) half floats_4x4 = Ok tt ste /\
    forall a, heap stb a = heap ste a.
Proof.
  split; [exact floats_4x4_valid|].
  apply (border_and_extend_agree_inside F32.zero true NearestBorderFl NearestFl
           4096 16 4 4 4 (F32.of_int 3) half 3 0 floats_4x4
           eq_refl eq_refl eq_refl floats_4x4_valid eq_refl eq_refl); lia.
Defined.

(** ** The byte samplers are the float samplers at four components *)

Lemma bind_ext {V A B : Type} (m : M V A) (k k' : A -> M V B) (st : state V) :
  (forall a st1, k a st1 = k' a st1) -> bind m k st = bind m k' st.
Proof.
  intros Hk. unfold bind. destruct (m st) as [a st1 | f]; [apply Hk | reflexivity].
Qed.

(** X5. The extend-mode and the repeat-mode byte samplers, which spell the
    copy of their four channels out, do exactly what the float samplers do
    in their loop with [components = 4]: the same outcome, the same memory
    and the same sequence of reads and writes, from every state and for
    every argument. *)
Theorem byte_samplers_are_float_samplers_at_4 {V : Type} (with_asserts : bool)
    (buffer output width height : Z) (u v : float) (st : state V) :
  interpolate_nearest_byte with_asserts buffer output width height u v st
  = interpolate_nearest_fl with_asserts buffer output width height 4 u v st
  /\
  interpolate_nearest_wrap_byte with_asserts buffer output width height u v st
  = interpolate_nearest_wrap_fl with_asserts buffer output width height 4 u v st.
Proof.
  split.
  - unfold interpolate_nearest_byte, interpolate_nearest_fl.
    apply bind_ext; intros _ s0.
    apply bind_ext; intros iu s1.
    apply bind_ext; intros iv s2. cbv zeta.
    apply bind_ext; intros data s3.
    apply copy4_unrolled.
  - unfold interpolate_nearest_wrap_byte, interpolate_nearest_wrap_fl. cbv zeta.
    apply bind_ext; intros _ s0.
    apply bind_ext; intros x s1.
    apply bind_ext; intros y s2.
    apply bind_ext; intros _ s3.
    apply bind_ext; intros data s4.
    apply copy4_unrolled.
Qed.

(** A zero fill faults as soon as one of its cells is outside every object. *)
Lemma store_free {V : Type} (a : Z) (v : V) (st : state V) :
  heap st a = Free -> store a v st = Fault Undefined.
Proof. unfold store. intros ->. reflexivity. Qed.

Lemma fill_loop_fault {V : Type} (z : V) (output : Z) (k : nat) :
  forall i (st : state V),
  (exists j, i <= j < i + Z.of_nat k /\ heap st (output + j) = Free) ->
  for_loop k i (fun i => store (output + i) z) st = Fault Undefined.
Proof.
  induction k as [|k IH]; intros i st (j & Hj & Hfree); [lia|].
  cbn [for_loop].
  destruct (heap st (output + i)) eqn:Hi.
  - apply bind_fault. apply store_free. exact Hi.
  - rewrite (bind_ok _ _ _ _ _ (store_allocated (output + i) z st ltac:(congruence))).
    apply IH. exists j. destruct (Z.eq_dec j i) as [-> | Hne]; [congruence|].
    split; [lia|]. cbn [heap]. rewrite upd_other by lia. exact Hfree.
  - rewrite (bind_ok _ _ _ _ _ (store_allocated (output + i) z st ltac:(congruence))).
    apply IH. exists j. destruct (Z.eq_dec j i) as [-> | Hne]; [congruence|].
    split; [lia|]. cbn [heap]. rewrite upd_other by lia. exact Hfree.
Qed.

Lemma fill4_fault {V : Type} (z : V) (output : Z) (st : state V) :
  (exists j, 0 <= j < 4 /\ heap st (output + j) = Free) ->
  (store (output + 3) z ;; store (output + 2) z ;;
   store (output + 1) z ;; store (output + 0) z) st = Fault Undefined.
Proof.
  intros (j & Hj & Hfree). unfold bind.
  assert (Hc : j = 0 \/ j = 1 \/ j = 2 \/ j = 3) by lia.
  destruct (heap st (output + 3)) eqn:H3;
    [rewrite (store_free (output + 3)) by exact H3; reflexivity | |];
    (rewrite (store_allocated (output + 3)) by congruence;
     destruct (heap st (output + 2)) eqn:H2;
     [rewrite (store_free (output + 2))
        by (cbn [heap]; rewrite ?upd_other by lia; exact H2); reflexivity | |];
     (rewrite (store_allocated (output + 2))
        by (cbn [heap]; rewrite ?upd_other by lia; congruence);
      destruct (heap st (output + 1)) eqn:H1;
      [rewrite (store_free (output + 1))
         by (cbn [heap]; rewrite ?upd_other by lia; exact H1); reflexivity | |];
      (rewrite (store_allocated (output + 1))
         by (cbn [heap]; rewrite ?upd_other by lia; congruence);
       apply store_free; cbn [heap]; rewrite ?upd_other by lia;
       destruct Hc as [-> | [-> | [-> | ->]]]; congruence))).
Qed.

Lemma allocated_or_free {V : Type} (st : state V) (output : Z) (k : nat) :
  allocated st output (Z.of_nat k) \/
  exists j, 0 <= j < Z.of_nat k /\ heap st (output + j) = Free.
Proof.
  induction k as [|k IH].
  - left. intros a Ha. unfold in_region in Ha. lia.
  - destruct IH as [Hall | (j & Hj & Hfree)].
    + destruct (heap st (output + Z.of_nat k)) eqn:Hk.
      * right. exists (Z.of_nat k). split; [lia | exact Hk].
      * left. intros a Ha. unfold in_region in Ha.
        destruct (Z.eq_dec a (output + Z.of_nat k)) as [-> | Hne]; [congruence|].
        apply Hall. unfold in_region. lia.
      * left. intros a Ha. unfold in_region in Ha.
        destruct (Z.eq_dec a (output + Z.of_nat k)) as [-> | Hne]; [congruence|].
        apply Hall. unfold in_region. lia.
    + right. exists j. split; [lia | exact Hfree].
Qed.

Lemma same_outcome_refl {V A : Type} (r : result V A) : same_outcome r r.
Proof.
  destruct r as [a st | f]; cbn; [|reflexivity].
  repeat split; try reflexivity; tauto.
Qed.

Lemma filled_same {V : Type} (z : V) (output n : Z) (st s1 s2 : state V) :
  filled z output n st s1 -> filled z output n st s2 ->
  same_outcome (Ok tt s1) (Ok tt s2).
Proof.
  intros [Hc1 Hf1 Hb1 Hr1 (l1 & Hl1 & Hin1)] [Hc2 Hf2 Hb2 Hr2 (l2 & Hl2 & Hin2)].
  cbn. split; [reflexivity|]. split; [|split; [congruence|split; [congruence|]]].
  - intros a. destruct (Z_le_dec output a) as [Hlo|Hlo];
      [destruct (Z_lt_dec a (output + n)) as [Hhi|Hhi]|].
    + replace a with (output + (a - output)) by lia.
      rewrite Hc1, Hc2 by lia. reflexivity.
    + rewrite Hf1, Hf2 by (unfold in_region; lia). reflexivity.
    + rewrite Hf1, Hf2 by (unfold in_region; lia). reflexivity.
  - intros a. rewrite Hl1, Hl2, !in_app_iff, Hin1, Hin2. tauto.
Qed.

(** X6. The byte border sampler writes its four zeros from the last channel
    to the first and the float border sampler from the first to the last;
    apart from that order the byte sampler does what the float sampler does
    with [components = 4]: from every state and for every argument the two
    end with the same fault, or with the same memory contents, the same
    reads and the same set of written addresses. *)
Theorem byte_border_sampler_is_float_border_sampler_at_4 {V : Type} (zero : V)
    (with_asserts : bool) (buffer output width height : Z) (u v : float)
    (st : state V) :
  same_outcome
    (interpolate_nearest_border_byte zero with_asserts buffer output
       width height u v st)
    (interpolate_nearest_border_fl zero with_asserts buffer output
       width height 4 u v st).
Proof.
  unfold interpolate_nearest_border_byte, interpolate_nearest_border_fl.
  rewrite !assert_buffer.
  destruct (with_asserts && (buffer =? 0)); [reflexivity|].
  rewrite !defined_bind. destruct (F32.to_int u) as [x|]; [|reflexivity].
  rewrite !defined_bind. destruct (F32.to_int v) as [y|]; [|reflexivity].
  destruct ((x <? 0) || (x >=? width) || (y <? 0) || (y >=? height)).
  - destruct (allocated_or_free st output 4) as [Hall | Hfree].
    + destruct (fill4_unrolled zero output st Hall) as (s1 & -> & Hf1).
      destruct (fill_upto zero output 4 st Hall) as (s2 & -> & Hf2).
      exact (filled_same zero output 4 st s1 s2 Hf1 Hf2).
    + rewrite (fill4_fault zero output st Hfree).
      unfold for_upto. rewrite (fill_loop_fault zero output (Z.to_nat 4) 0 st).
      * reflexivity.
      * destruct Hfree as (j & Hj & Hf). exists j. split; [lia | exact Hf].
  - replace ((data <- texel_ptr buffer width y x 4 ;;
              d0 <- load (data + 0) ;; store (output + 0) d0 ;;
              d1 <- load (data + 1) ;; store (output + 1) d1 ;;
              d2 <- load (data + 2) ;; store (output + 2) d2 ;;
              d3 <- load (data + 3) ;; store (output + 3) d3) st)
      with ((data <- texel_ptr buffer width y x 4 ;;
             for_upto 4 (fun i => d <- load (data + i) ;; store (output + i) d)) st).
    + apply same_outcome_refl.
    + apply bind_ext. intros data s1. symmetry. apply copy4_unrolled.
Qed.

(** ** The assertions of a debug build *)

(** X7. In a debug build every sampler, and every overload that returns
    four components, stops on its first assertion when the buffer pointer
    is null: before any conversion, read or write, whatever the other
    arguments are. *)
Theorem null_buffer_fails_the_assertion {V : Type} (zero : V) (s : sampler)
    (output width height components : Z) (u v : float) (st : state V) :
  call zero true s 0 output width height components u v st = Fault AssertFailed /\
  call4 zero true s 0 width height u v st = Fault AssertFailed.
Proof.
  assert (Hcall : forall out n (st0 : state V),
            call zero true s 0 out width height n u v st0 = Fault AssertFailed).
  { intros out n st0.
    destruct s; cbn [call];
      unfold interpolate_nearest_border_byte, interpolate_nearest_border_fl,
             interpolate_nearest_byte, interpolate_nearest_fl,
             interpolate_nearest_wrap_byte, interpolate_nearest_wrap_fl;
      rewrite assert_buffer; reflexivity. }
  split; [apply Hcall|].
  rewrite call4_returning, returning4_run, Hcall. reflexivity.
Qed.

(** X8. In a debug build a repeat-mode sampler called within its contract
    reads the buffer only when the wrapped index is inside the image.  If
    the wrapped coordinates convert to (x, y) with 0 <= x < width and
    0 <= y < height it returns with the channels of texel (x, y) in the
    output; if they convert to an index outside the image the assertion
    stops it; if one of them does not convert the behaviour is undefined. *)
Theorem debug_repeat_sampler_checks_its_index {V : Type} (zero : V)
    (s : sampler) (buffer output width height components : Z) (u v : float)
    (st : state V) :
  mode s = Repeat ->
  valid_call st buffer output width height (channels s components) ->
  let r := call zero true s buffer output width height components u v st in
  match F32.to_int (floored_fmod u (F32.of_int width)),
        F32.to_int (floored_fmod v (F32.of_int height)) with
  | Some x, Some y =>
      (0 <= x < width /\ 0 <= y < height /\
       exists st', r = Ok tt st' /\
                   copied (texel buffer width (channels s components) x y)
                          output (channels s components) st st')
      \/
      (~ (0 <= x < width /\ 0 <= y < height) /\ r = Fault AssertFailed)
  | _, _ => r = Fault Undefined
  end.
Proof.
  intros Hs Hvc r.
  destruct (F32.to_int (floored_fmod u (F32.of_int width))) as [x|] eqn:Hx.
  2:{ subst r. destruct s; try discriminate Hs; cbn [call];
        unfold interpolate_nearest_wrap_byte, interpolate_nearest_wrap_fl;
        cbv zeta; rewrite assert_buffer,
          (null_check_passes true buffer (vc_buffer _ _ _ _ _ _ Hvc)),
          defined_bind, Hx; reflexivity. }
  destruct (F32.to_int (floored_fmod v (F32.of_int height))) as [y|] eqn:Hy.
  2:{ subst r. destruct s; try discriminate Hs; cbn [call];
        unfold interpolate_nearest_wrap_byte, interpolate_nearest_wrap_fl;
        cbv zeta; rewrite assert_buffer,
          (null_check_passes true buffer (vc_buffer _ _ _ _ _ _ Hvc)),
          defined_bind, Hx, defined_bind, Hy; reflexivity. }
  destruct (Z_le_dec 0 x) as [Hx0|Hx0];
    [destruct (Z_lt_dec x width) as [Hx1|Hx1];
     [destruct (Z_le_dec 0 y) as [Hy0|Hy0];
      [destruct (Z_lt_dec y height) as [Hy1|Hy1]|]|]|].
  1:{ left. split; [lia|]. split; [lia|].
      exact (nearest_wrap_inside zero true s buffer output width height
               components u v x y st Hs Hvc Hx Hy ltac:(lia) ltac:(lia)). }
  all: right; split; [lia|]; subst r;
    destruct s; try discriminate Hs; cbn [call];
    unfold interpolate_nearest_wrap_byte, interpolate_nearest_wrap_fl;
    cbv zeta; rewrite assert_buffer,
      (null_check_passes true buffer (vc_buffer _ _ _ _ _ _ Hvc)),
      defined_bind, Hx, defined_bind, Hy;
    unfold bind at 1; unfold BLI_assert;
    replace ((x >=? 0) && (y >=? 0) && (x <? width) && (y <? height)) with false;
    try reflexivity;
    symmetry; rewrite !andb_false_iff, !Z.geb_leb, !Z.leb_gt, !Z.ltb_ge; lia.
Qed.

Lemma debug_repeat_sampler_checks_its_index_witness :
  valid_call bytes_4x4 4096 16 4 4 4 /\
  ((0 <= 1 < 4 /\ 0 <= 3 < 4 /\
    exists st',
      call (0 : uchar) true NearestWrapByte 4096 16 4 4 4
           (F32.of_int 5) (F32.of_int (-1)) bytes_4x4 = Ok tt st' /\
      copied (texel 4096 4 4 1 3) 16 4 bytes_4x4 st')
   \/
   (~ (0 <= 1 < 4 /\ 0 <= 3 < 4) /\
    call (0 : uchar) true NearestWrapByte 4096 16 4 4 4
         (F32.of_int 5) (F32.of_int (-1)) bytes_4x4 = Fault AssertFailed)).
Proof.
  split; [exact bytes_4x4_valid|].
  exact (debug_repeat_sampler_checks_its_index (0 : uchar) NearestWrapByte
           4096 16 4 4 4 (F32.of_int 5) (F32.of_int (-1)) bytes_4x4
           eq_refl bytes_4x4_valid).
Defined.

(** ** Reads stay inside the buffer *)

(** X9. A sampler called within its contract never reads outside the pixel
    buffer, however far outside the image the coordinate lies: every
    address it reads belongs to the buffer.  This holds for the border and
    extend samplers in every build, and for the repeat samplers in a debug
    build. *)
Theorem samplers_read_inside_the_buffer {V : Type} (zero : V)
    (with_asserts : bool) (s : sampler)
    (buffer output width height components : Z) (u v : float)
    (st st' : state V) :
  valid_call st buffer output width height (channels s components) ->
  match mode s with Repeat => with_asserts = true | Extend | Border => True end ->
  call zero with_asserts s buffer output width height components u v st
    = Ok tt st' ->
  exists l,
    reads st' = l ++ reads st /\
    forall a, In a l ->
              in_region buffer (width * height * channels s components) a.
Proof.
  intros Hvc Hmode Hrun.
  set (n := channels s components) in *.
  assert (Hin : plan_in_buffer buffer (width * height * n) n
                  (plan_of with_asserts s buffer width height components u v)).
  { destruct Hvc as [_ Hw Hh Hc _ _ _ _].
    apply plan_of_in_buffer; (assumption || lia). }
  pose proof (call_valid zero with_asserts s buffer output width height
                components u v st Hvc Hin) as Hp.
  cbv zeta in Hp. fold n in Hp. rewrite Hrun in Hp.
  destruct (plan_of with_asserts s buffer width height components u v)
    as [f | | data]; cbn [performed plan_in_buffer] in Hp, Hin.
  - discriminate Hp.
  - destruct Hp as (s1 & [= <-] & Hf). exists [].
    split; [exact (filled_reads _ _ _ _ _ Hf) | intros a []].
  - destruct Hp as (s1 & [= <-] & Hc).
    destruct (copied_reads _ _ _ _ _ Hc) as (l & Hl & Hmem).
    exists l. split; [exact Hl|]. intros a Ha. apply Hmem in Ha.
    unfold in_region in *. lia.
Qed.

Lemma samplers_read_inside_the_buffer_witness :
  valid_call floats_4x4 4096 16 4 4 4 /\
  exists st',
    call F32.zero true NearestFl 4096 16 4 4 4
         (F32.of_int 1000000) (F32.of_int (-1000000)) floats_4x4 = Ok tt st' /\
    exists l,
      reads st' = l ++ reads floats_4x4 /\
      forall a, In a l -> in_region 4096 (4 * 4 * channels NearestFl 4) a.
Proof.
  split; [exact floats_4x4_valid|].
  destruct (extend_copies F32.zero true NearestFl 4096 16 4 4 4
              (F32.of_int 1000000) (F32.of_int (-1000000)) 1000000 (-1000000)
              floats_4x4 eq_refl floats_4x4_valid eq_refl eq_refl)
    as (st' & Hrun & _).
  exists st'. split; [exact Hrun|].
  exact (samplers_read_inside_the_buffer F32.zero true NearestFl 4096 16 4 4 4
           (F32.of_int 1000000) (F32.of_int (-1000000)) floats_4x4 st'
           floats_4x4_valid I Hrun).
Defined.

(** ** What the overloads return *)

Lemma valid_image_pushed {V : Type} (st : state V) (buffer width height : Z) :
  valid_image st buffer width height 4 -> stack_fresh st ->
  valid_call (pushed 4 st) buffer (brk st) width height 4.
Proof.
  intros [Hb Hw Hh Hc Hsz Hpix] Hfresh. constructor; try assumption.
  - intros a Ha. destruct (Hpix a Ha) as [x Hx]. exists x.
    rewrite <- Hx. apply pushed_below; [congruence | exact Hfresh].
  - intros a Ha. unfold in_region in Ha. cbn [pushed heap].
    destruct (Z.leb_spec (brk st) a); destruct (Z.ltb_spec a (brk st + 4));
      cbn [andb]; try lia. discriminate.
  - right.
    destruct (Z_le_dec (buffer + width * height * 4) (brk st)) as [Hle|Hgt];
      [exact Hle|].
    pose proof (initialized_below st buffer (width * height * 4)
                  (buffer + width * height * 4 - 1) Hpix Hfresh
                  ltac:(unfold in_region; nia)).
    lia.
Qed.

Lemma valid_call_image {V : Type} (st : state V)
    (buffer output width height n : Z) :
  valid_call st buffer output width height n ->
  valid_image st buffer width height n.
Proof. intros [Hb Hw Hh Hc Hsz Hpix _ _]. constructor; assumption. Qed.

Lemma call4_of_fill {V : Type} (zero : V) (with_asserts : bool) (s : sampler)
    (buffer width height : Z) (u v : float) (st s1 : state V) :
  stack_fresh st ->
  call zero with_asserts s buffer (brk st) width height 4 u v (pushed 4 st)
    = Ok tt s1 ->
  filled zero (brk st) 4 (pushed 4 st) s1 ->
  exists st'',
    call4 zero with_asserts s buffer width height u v st
      = Ok (mk4 zero zero zero zero) st'' /\
    (forall a, heap st'' a = heap st a) /\ brk st'' = brk st.
Proof.
  intros Hfresh Hrun Hf.
  pose proof (returning4_restores
                (fun res => call zero with_asserts s buffer res width height 4 u v)
                st) as Hrest.
  rewrite call4_returning. rewrite returning4_run in *. rewrite Hrun in *.
  rewrite !(filled_cells _ _ _ _ _ Hf) in * by lia.
  assert (Hconf : forall res, confined (in_region res 4)
            (call zero with_asserts s buffer res width height 4 u v)).
  { intros res.
    pose proof (call_confined zero with_asserts s buffer res width height 4 u v) as Hc.
    rewrite channels_4 in Hc. exact Hc. }
  eexists. split; [reflexivity|].
  exact (Hrest _ _ Hconf Hfresh eq_refl).
Qed.

Lemma call4_of_copy {V : Type} (zero : V) (with_asserts : bool) (s : sampler)
    (buffer width height data : Z) (u v : float) (st s1 : state V) :
  stack_fresh st ->
  initialized st data 4 ->
  call zero with_asserts s buffer (brk st) width height 4 u v (pushed 4 st)
    = Ok tt s1 ->
  copied data (brk st) 4 (pushed 4 st) s1 ->
  exists r st'',
    call4 zero with_asserts s buffer width height u v st = Ok r st'' /\
    heap st (data + 0) = Init (c0 r) /\ heap st (data + 1) = Init (c1 r) /\
    heap st (data + 2) = Init (c2 r) /\ heap st (data + 3) = Init (c3 r) /\
    (forall a, heap st'' a = heap st a) /\ brk st'' = brk st.
Proof.
  intros Hfresh Hinit Hrun Hc.
  pose proof (returning4_restores
                (fun res => call zero with_asserts s buffer res width height 4 u v)
                st) as Hrest.
  destruct (Hinit (data + 0) ltac:(unfold in_region; lia)) as [r0 Hr0].
  destruct (Hinit (data + 1) ltac:(unfold in_region; lia)) as [r1 Hr1].
  destruct (Hinit (data + 2) ltac:(unfold in_region; lia)) as [r2 Hr2].
  destruct (Hinit (data + 3) ltac:(unfold in_region; lia)) as [r3 Hr3].
  assert (Hlow : forall i x, heap st (data + i) = Init x ->
                   heap (pushed 4 st) (data + i) = Init x).
  { intros i x Hx. rewrite <- Hx. apply pushed_below; [congruence | exact Hfresh]. }
  rewrite call4_returning. rewrite returning4_run in *. rewrite Hrun in *.
  rewrite !(copied_cells _ _ _ _ _ Hc) in * by lia.
  rewrite (Hlow 0 r0 Hr0), (Hlow 1 r1 Hr1), (Hlow 2 r2 Hr2), (Hlow 3 r3 Hr3) in *.
  exists (mk4 r0 r1 r2 r3). eexists. split; [reflexivity|]. cbn [c0 c1 c2 c3].
  repeat (split; [assumption|]).
  refine (Hrest _ _ _ Hfresh eq_refl).
  intros res.
  pose proof (call_confined zero with_asserts s buffer res width height 4 u v) as Hcf.
  rewrite channels_4 in Hcf. exact Hcf.
Qed.

Lemma allocated_pushed {V : Type} (st : state V) :
  allocated (pushed 4 st) (brk st) 4.
Proof.
  intros a Ha. unfold in_region in Ha. cbn [pushed heap].
  destruct (Z.leb_spec (brk st) a); destruct (Z.ltb_spec a (brk st + 4));
    cbn [andb]; try lia. discriminate.
Qed.

(** X10. The border overloads that return a [uchar4] or a [float4] need no
    output array.  For a truncated coordinate outside the image they return
    four zeros, whatever the buffer pointer points to; for one inside the
    image they return the four channels of texel (int(u), int(v)).  Either
    way the memory is afterwards as it was before the call. *)
Theorem border_overload_returns_texel_or_zero {V : Type} (zero : V)
    (with_asserts : bool) (s : sampler) (buffer width height : Z)
    (u v : float) (x y : Z) (st : state V) :
  mode s = Border ->
  stack_fresh st ->
  F32.to_int u = Some x -> F32.to_int v = Some y ->
  (buffer <> 0 ->
   x < 0 \/ width <= x \/ y < 0 \/ height <= y ->
   exists st'',
     call4 zero with_asserts s buffer width height u v st
       = Ok (mk4 zero zero zero zero) st'' /\
     (forall a, heap st'' a = heap st a) /\ brk st'' = brk st)
  /\
  (valid_image st buffer width height 4 ->
   0 <= x < width -> 0 <= y < height ->
   exists r st'',
     call4 zero with_asserts s buffer width height u v st = Ok r st'' /\
     heap st (texel buffer width 4 x y + 0) = Init (c0 r) /\
     heap st (texel buffer width 4 x y + 1) = Init (c1 r) /\
     heap st (texel buffer width 4 x y + 2) = Init (c2 r) /\
     heap st (texel buffer width 4 x y + 3) = Init (c3 r) /\
     (forall a, heap st'' a = heap st a) /\ brk st'' = brk st).
Proof.
  intros Hs Hfresh Hx Hy. split.
  - intros Hb Hout.
    destruct (border_outside_fills zero with_asserts s buffer (brk st) width
                height 4 u v x y (pushed 4 st) Hs Hb) as (s1 & Hrun & Hf);
      try assumption.
    { rewrite channels_4. apply allocated_pushed. }
    rewrite channels_4 in Hf.
    exact (call4_of_fill zero with_asserts s buffer width height u v st s1
             Hfresh Hrun Hf).
  - intros Hvi Hxr Hyr.
    assert (Hvc : valid_call (pushed 4 st) buffer (brk st) width height
                             (channels s 4))
      by (rewrite channels_4; exact (valid_image_pushed st buffer width height
                                       Hvi Hfresh)).
    destruct (nearest_border_inside zero with_asserts s buffer (brk st) width
                height 4 u v x y (pushed 4 st) Hs Hvc Hx Hy Hxr Hyr)
      as (s1 & Hrun & Hc).
    cbv zeta in Hc. rewrite channels_4 in Hc.
    apply (call4_of_copy zero with_asserts s buffer width height
             (texel buffer width 4 x y) u v st s1 Hfresh); try assumption.
    intros a Ha. apply (vi_pixels _ _ _ _ _ Hvi).
    destruct Hvi as [_ Hw Hh _ _ _].
    pose proof (texel_in_buffer buffer width height 4 x y
                  ltac:(lia) ltac:(lia) ltac:(lia) Hxr Hyr).
    unfold in_region in *. lia.
Qed.

Lemma border_overload_returns_texel_or_zero_witness :
  stack_fresh bytes_4x4 /\ valid_image bytes_4x4 4096 4 4 4 /\
  (exists st'',
     call4 (0 : uchar) true NearestBorderByte 4096 4 4
           (F32.of_int 5) (F32.of_int 5) bytes_4x4 = Ok (mk4 0 0 0 0) st'' /\
     (forall a, heap st'' a = heap bytes_4x4 a) /\ brk st'' = brk bytes_4x4) /\
  (exists r st'',
     call4 (0 : uchar) true NearestBorderByte 4096 4 4
           (F32.of_int 1) (F32.of_int 2) bytes_4x4 = Ok r st'' /\
     heap bytes_4x4 (texel 4096 4 4 1 2 + 0) = Init (c0 r) /\
     heap bytes_4x4 (texel 4096 4 4 1 2 + 1) = Init (c1 r) /\
     heap bytes_4x4 (texel 4096 4 4 1 2 + 2) = Init (c2 r) /\
     heap bytes_4x4 (texel 4096 4 4 1 2 + 3) = Init (c3 r) /\
     (forall a, heap st'' a = heap bytes_4x4 a) /\ brk st'' = brk bytes_4x4).
Proof.
  split; [exact bytes_4x4_fresh|].
  split; [exact (valid_call_image _ _ _ _ _ _ bytes_4x4_valid)|].
  split.
  - apply (proj1 (border_overload_returns_texel_or_zero (0 : uchar) true
                    NearestBorderByte 4096 4 4 (F32.of_int 5) (F32.of_int 5) 5 5
                    bytes_4x4 eq_refl bytes_4x4_fresh eq_refl eq_refl)); lia.
  - apply (proj2 (border_overload_returns_texel_or_zero (0 : uchar) true
                    NearestBorderByte 4096 4 4 (F32.of_int 1) (F32.of_int 2) 1 2
                    bytes_4x4 eq_refl bytes_4x4_fresh eq_refl eq_refl));
      [exact (valid_call_image _ _ _ _ _ _ bytes_4x4_valid) | lia | lia].
Defined.

(** X11. The extend overloads that return a [uchar4] or a [float4] return,
    for every coordinate that converts to [int], the four channels of the
    texel at (clamp(int(u), 0, width-1), clamp(int(v), 0, height-1)), and
    leave the memory as it was before the call. *)
Theorem extend_overload_returns_clamped_texel {V : Type} (zero : V)
    (with_asserts : bool) (s : sampler) (buffer width height : Z)
    (u v : float) (iu iv : Z) (st : state V) :
  mode s = Extend ->
  valid_image st buffer width height 4 ->
  stack_fresh st ->
  F32.to_int u = Some iu -> F32.to_int v = Some iv ->
  let data := texel buffer width 4 (clamp iu 0 (width - 1))
                    (clamp iv 0 (height - 1)) in
  exists r st'',
    call4 zero with_asserts s buffer width height u v st = Ok r st'' /\
    heap st (data + 0) = Init (c0 r) /\ heap st (data + 1) = Init (c1 r) /\
    heap st (data + 2) = Init (c2 r) /\ heap st (data + 3) = Init (c3 r) /\
    (forall a, heap st'' a = heap st a) /\ brk st'' = brk st.
Proof.
  intros Hs Hvi Hfresh Hu Hv data.
  assert (Hvc : valid_call (pushed 4 st) buffer (brk st) width height
                           (channels s 4))
    by (rewrite channels_4; exact (valid_image_pushed st buffer width height
                                     Hvi Hfresh)).
  destruct (extend_copies zero with_asserts s buffer (brk st) width height 4
              u v iu iv (pushed 4 st) Hs Hvc Hu Hv) as (s1 & Hrun & Hc).
  cbv zeta in Hc. rewrite channels_4 in Hc. fold data in Hc.
  apply (call4_of_copy zero with_asserts s buffer width height data u v st s1
           Hfresh); try assumption.
  intros a Ha. apply (vi_pixels _ _ _ _ _ Hvi).
  destruct Hvi as [_ Hw Hh _ _ _].
  pose proof (clamp_range iu (width - 1) ltac:(lia)).
  pose proof (clamp_range iv (height - 1) ltac:(lia)).
  pose proof (texel_in_buffer buffer width height 4
                (clamp iu 0 (width - 1)) (clamp iv 0 (height - 1))
                ltac:(lia) ltac:(lia) ltac:(lia) ltac:(lia) ltac:(lia)).
  unfold in_region in *. subst data. lia.
Qed.

Lemma extend_overload_returns_clamped_texel_witness :
  valid_image floats_4x4 4096 4 4 4 /\ stack_fresh floats_4x4 /\
  exists r st'',
    call4 F32.zero true NearestFl 4096 4 4
          (F32.of_int 9) minus_half floats_4x4 = Ok r st'' /\
    heap floats_4x4 (texel 4096 4 4 (clamp 9 0 (4 - 1)) (clamp 0 0 (4 - 1)) + 0)
    = Init (c0 r) /\
    heap floats_4x4 (texel 4096 4 4 (clamp 9 0 (4 - 1)) (clamp 0 0 (4 - 1)) + 1)
    = Init (c1 r) /\
    heap floats_4x4 (texel 4096 4 4 (clamp 9 0 (4 - 1)) (clamp 0 0 (4 - 1)) + 2)
    = Init (c2 r) /\
    heap floats_4x4 (texel 4096 4 4 (clamp 9 0 (4 - 1)) (clamp 0 0 (4 - 1)) + 3)
    = Init (c3 r) /\
    (forall a, heap st'' a = heap floats_4x4 a) /\ brk st'' = brk floats_4x4.
Proof.
  split; [exact (valid_call_image _ _ _ _ _ _ floats_4x4_valid)|].
  split; [exact floats_4x4_fresh|].
  exact (extend_overload_returns_clamped_texel F32.zero true NearestFl 4096 4 4
           (F32.of_int 9) minus_half 9 0 floats_4x4 eq_refl
           (valid_call_image _ _ _ _ _ _ floats_4x4_valid) floats_4x4_fresh
           eq_refl eq_refl).
Defined.

(** ** Calls in sequence *)

(** What a call that returns leaves behind: the output cells hold values,
    and every other cell is as before. *)
Lemma call_effect {V : Type} (zero : V) (with_asserts : bool) (s : sampler)
    (buffer output width height components : Z) (u v : float)
    (st st' : state V) :
  let n := channels s components in
  valid_call st buffer output width height n ->
  match mode s with Repeat => with_asserts = true | Extend | Border => True end ->
  call zero with_asserts s buffer output width height components u v st
    = Ok tt st' ->
  (forall i, 0 <= i < n -> exists x, heap st' (output + i) = Init x) /\
  (forall a, ~ in_region output n a -> heap st' a = heap st a).
Proof.
  intros n Hvc Hmode Hrun.
  assert (Hin : plan_in_buffer buffer (width * height * n) n
                  (plan_of with_asserts s buffer width height components u v)).
  { destruct Hvc as [_ Hw Hh Hc _ _ _ _].
    apply plan_of_in_buffer; (assumption || lia). }
  pose proof (call_valid zero with_asserts s buffer output width height
                components u v st Hvc Hin) as Hp.
  cbv zeta in Hp. fold n in Hp. rewrite Hrun in Hp.
  pose proof (valid_call_copy st buffer output width height n _ Hvc Hin) as Hdata.
  destruct (plan_of with_asserts s buffer width height components u v)
    as [f | | data]; cbn [performed] in Hp.
  - discriminate Hp.
  - destruct Hp as (s1 & [= <-] & Hf). split.
    + intros i Hi. exists zero. exact (filled_cells _ _ _ _ _ Hf i Hi).
    + exact (filled_frame _ _ _ _ _ Hf).
  - destruct Hp as (s1 & [= <-] & Hc). split.
    + intros i Hi. rewrite (copied_cells _ _ _ _ _ Hc i Hi).
      destruct (Hdata data eq_refl) as [Hinit _].
      apply Hinit. unfold in_region. lia.
    + exact (copied_frame _ _ _ _ _ Hc).
Qed.

Lemma call_keeps_contract {V : Type} (zero : V) (with_asserts : bool)
    (s : sampler) (buffer output width height components : Z) (u v : float)
    (st st' : state V) :
  let n := channels s components in
  valid_call st buffer output width height n ->
  match mode s with Repeat => with_asserts = true | Extend | Border => True end ->
  call zero with_asserts s buffer output width height components u v st
    = Ok tt st' ->
  valid_call st' buffer output width height n.
Proof.
  intros n Hvc Hmode Hrun.
  destruct (call_effect zero with_asserts s buffer output width height
              components u v st st' Hvc Hmode Hrun) as [Hout Hframe].
  fold n in Hout, Hframe.
  destruct Hvc as [Hb Hw Hh Hc Hsz Hpix Halloc Hsep].
  constructor; try assumption.
  - intros a Ha. rewrite Hframe; [exact (Hpix a Ha)|].
    unfold separate, in_region in *. lia.
  - intros a Ha. unfold in_region in Ha.
    destruct (Hout (a - output) ltac:(lia)) as [x Hx].
    replace (output + (a - output)) with a in Hx by lia. congruence.
Qed.

(** X12. The calling contract is an invariant: after a sampler has returned
    the memory satisfies the contract of the same call again (the buffer
    is still initialised and untouched, the output array still allocated),
    so samplers can be called one after the other on the same buffer and
    output. *)
Theorem samplers_keep_the_calling_contract {V : Type} (zero : V)
    (with_asserts : bool) (s : sampler)
    (buffer output width height components : Z) (u v : float)
    (st st' : state V) :
  valid_call st buffer output width height (channels s components) ->
  match mode s with Repeat => with_asserts = true | Extend | Border => True end ->
  call zero with_asserts s buffer output width height components u v st
    = Ok tt st' ->
  valid_call st' buffer output width height (channels s components) /\
  forall a, in_region buffer (width * height * channels s components) a ->
            heap st' a = heap st a.
Proof.
  intros Hvc Hmode Hrun. split.
  - exact (call_keeps_contract zero with_asserts s buffer output width height
             components u v st st' Hvc Hmode Hrun).
  - intros a Ha.
    apply (proj2 (call_effect zero with_asserts s buffer output width height
                    components u v st st' Hvc Hmode Hrun)).
    pose proof (vc_separate _ _ _ _ _ _ Hvc) as Hsep.
    unfold separate, in_region in *. lia.
Qed.

Lemma samplers_keep_the_calling_contract_witness :
  valid_call bytes_4x4 4096 16 4 4 4 /\
  exists st',
    call (0 : uchar) true NearestBorderByte 4096 16 4 4 4
         (F32.of_int 7) (F32.of_int 0) bytes_4x4 = Ok tt st' /\
    valid_call st' 4096 16 4 4 (channels NearestBorderByte 4) /\
    forall a, in_region 4096 (4 * 4 * channels NearestBorderByte 4) a ->
              heap st' a = heap bytes_4x4 a.
Proof.
  split; [exact bytes_4x4_valid|].
  destruct (border_outside_fills (0 : uchar) true NearestBorderByte 4096 16 4 4 4
              (F32.of_int 7) (F32.of_int 0) 7 0 bytes_4x4 eq_refl ltac:(lia)
              (vc_output _ _ _ _ _ _ bytes_4x4_valid) eq_refl eq_refl ltac:(lia))
    as (st' & Hrun & _).
  exists st'. split; [exact Hrun|].
  exact (samplers_keep_the_calling_contract (0 : uchar) true NearestBorderByte
           4096 16 4 4 4 (F32.of_int 7) (F32.of_int 0) bytes_4x4 st'
           bytes_4x4_valid I Hrun).
Defined.

(** X13. The output depends on the buffer and the coordinate only, not on
    what the output array held: a sample taken after another sample into
    the same output array leaves the memory exactly as that sample taken
    alone would.  In particular sampling twice with the same arguments is
    the same as sampling once. *)
Theorem last_sample_wins {V : Type} (zero : V) (with_asserts : bool)
    (s1 s2 : sampler) (buffer output width height components : Z)
    (u1 v1 u2 v2 : float) (st st1 st2 : state V) :
  channels s1 components = channels s2 components ->
  valid_call st buffer output width height (channels s2 components) ->
  match mode s1 with Repeat => with_asserts = true | Extend | Border => True end ->
  match mode s2 with Repeat => with_asserts = true | Extend | Border => True end ->
  call zero with_asserts s1 buffer output width height components u1 v1 st
    = Ok tt st1 ->
  call zero with_asserts s2 buffer output width height components u2 v2 st
    = Ok tt st2 ->
  exists st12,
    call zero with_asserts s2 buffer output width height components u2 v2 st1
      = Ok tt st12 /\
    forall a, heap st12 a = heap st2 a.
Proof.
  intros Hn Hvc Hm1 Hm2 Hrun1 Hrun2.
  set (n := channels s2 components) in *.
  assert (Hvc1 : valid_call st buffer output width height (channels s1 components))
    by (rewrite Hn; exact Hvc).
  destruct (call_effect zero with_asserts s1 buffer output width height
              components u1 v1 st st1 Hvc1 Hm1 Hrun1) as [_ Hframe1].
  rewrite Hn in Hframe1. fold n in Hframe1.
  pose proof (call_keeps_contract zero with_asserts s1 buffer output width
                height components u1 v1 st st1 Hvc1 Hm1 Hrun1) as Hvc'.
  rewrite Hn in Hvc'. fold n in Hvc'.
  assert (Hin : plan_in_buffer buffer (width * height * n) n
                  (plan_of with_asserts s2 buffer width height components u2 v2)).
  { destruct Hvc as [_ Hw Hh Hc _ _ _ _].
    apply plan_of_in_buffer; (assumption || lia). }
  pose proof (call_valid zero with_asserts s2 buffer output width height
                components u2 v2 st Hvc Hin) as Hp.
  pose proof (call_valid zero with_asserts s2 buffer output width height
                components u2 v2 st1 Hvc' Hin) as Hp'.
  cbv zeta in Hp, Hp'. fold n in Hp, Hp'. rewrite Hrun2 in Hp.
  pose proof (vc_separate _ _ _ _ _ _ Hvc) as Hsep.
  destruct (plan_of with_asserts s2 buffer width height components u2 v2)
    as [f | | data]; cbn [performed plan_in_buffer] in Hp, Hp', Hin.
  - discriminate Hp.
  - destruct Hp as (s & [= <-] & Hf). destruct Hp' as (st12 & Hrun12 & Hf').
    exists st12. split; [exact Hrun12|]. intros a.
    destruct (Z_le_dec output a) as [Hlo|Hlo];
      [destruct (Z_lt_dec a (output + n)) as [Hhi|Hhi]|].
    + replace a with (output + (a - output)) by lia.
      rewrite (filled_cells _ _ _ _ _ Hf), (filled_cells _ _ _ _ _ Hf') by lia.
      reflexivity.
    + rewrite (filled_frame _ _ _ _ _ Hf), (filled_frame _ _ _ _ _ Hf')
        by (unfold in_region; lia).
      apply Hframe1. unfold in_region. lia.
    + rewrite (filled_frame _ _ _ _ _ Hf), (filled_frame _ _ _ _ _ Hf')
        by (unfold in_region; lia).
      apply Hframe1. unfold in_region. lia.
  - destruct Hp as (s & [= <-] & Hc). destruct Hp' as (st12 & Hrun12 & Hc').
    exists st12. split; [exact Hrun12|]. intros a.
    destruct (Z_le_dec output a) as [Hlo|Hlo];
      [destruct (Z_lt_dec a (output + n)) as [Hhi|Hhi]|].
    + replace a with (output + (a - output)) by lia.
      rewrite (copied_cells _ _ _ _ _ Hc), (copied_cells _ _ _ _ _ Hc') by lia.
      apply Hframe1. unfold separate, in_region in *. lia.
    + rewrite (copied_frame _ _ _ _ _ Hc), (copied_frame _ _ _ _ _ Hc')
        by (unfold in_region; lia).
      apply Hframe1. unfold in_region. lia.
    + rewrite (copied_frame _ _ _ _ _ Hc), (copied_frame _ _ _ _ _ Hc')
        by (unfold in_region; lia).
      apply Hframe1. unfold in_region. lia.
Qed.

Lemma last_sample_wins_witness :
  valid_call floats_4x4 4096 16 4 4 4 /\
  exists st1 st2,
    call F32.zero true NearestBorderFl 4096 16 4 4 4
         (F32.of_int 7) (F32.of_int 0) floats_4x4 = Ok tt st1 /\
    call F32.zero true NearestFl 4096 16 4 4 4
         (F32.of_int 2) (F32.of_int 1) floats_4x4 = Ok tt st2 /\
    exists st12,
      call F32.zero true NearestFl 4096 16 4 4 4
           (F32.of_int 2) (F32.of_int 1) st1 = Ok tt st12 /\
      forall a, heap st12 a = heap st2 a.
Proof.
  split; [exact floats_4x4_valid|].
  destruct (border_outside_fills F32.zero true NearestBorderFl 4096 16 4 4 4
              (F32.of_int 7) (F32.of_int 0) 7 0 floats_4x4 eq_refl ltac:(lia)
              (vc_output _ _ _ _ _ _ floats_4x4_valid) eq_refl eq_refl ltac:(lia))
    as (st1 & Hrun1 & _).
  destruct (extend_copies F32.zero true NearestFl 4096 16 4 4 4
              (F32.of_int 2) (F32.of_int 1) 2 1 floats_4x4 eq_refl
              floats_4x4_valid eq_refl eq_refl) as (st2 & Hrun2 & _).
  exists st1, st2. split; [exact Hrun1|]. split; [exact Hrun2|].
  exact (last_sample_wins F32.zero true NearestBorderFl NearestFl 4096 16 4 4 4
           (F32.of_int 7) (F32.of_int 0) (F32.of_int 2) (F32.of_int 1)
           floats_4x4 st1 st2 eq_refl floats_4x4_valid I I Hrun1 Hrun2).
Defined.

(** ** The layout of the buffer *)

(** X14. The address arithmetic [buffer + (width * y + x) * components] of
    the samplers gives every texel of the image its own cells: the
    channels of two different texels never share an address, and every
    channel of every texel lies inside the buffer. *)
Theorem texels_do_not_overlap (buffer width height components : Z)
    (x y x' y' i i' : Z) :
  0 < width -> 0 < height -> 0 < components ->
  0 <= x < width -> 0 <= y < height -> 0 <= x' < width -> 0 <= y' < height ->
  0 <= i < components -> 0 <= i' < components ->
  in_region buffer (width * height * components)
            (texel buffer width components x y + i) /\
  (texel buffer width components x y + i
   = texel buffer width components x' y' + i' ->
   x = x' /\ y = y' /\ i = i').
Proof.
  intros Hw Hh Hc Hx Hy Hx' Hy' Hi Hi'. split.
  - pose proof (texel_in_buffer buffer width height components x y
                  Hw Hh Hc Hx Hy).
    unfold in_region. lia.
  - unfold texel. intros Heq.
    assert (Hk : (width * y + x) * components + i
                 = (width * y' + x') * components + i') by lia.
    assert (Hq : width * y + x = width * y' + x').
    { destruct (Z.div_mod_unique components (width * y + x) (width * y' + x')
                  i i' ltac:(lia) ltac:(lia)) as [Hq _]; [lia | exact Hq]. }
    destruct (Z.div_mod_unique width y y' x x' ltac:(lia) ltac:(lia) Hq)
      as [Hyy Hxx].
    subst. split; [reflexivity|]. split; [reflexivity|]. lia.
Qed.

Lemma texels_do_not_overlap_witness :
  in_region 4096 (4 * 4 * 4) (texel 4096 4 4 3 3 + 3) /\
  (texel 4096 4 4 3 3 + 3 = texel 4096 4 4 3 3 + 3 -> 3 = 3 /\ 3 = 3 /\ 3 = 3).
Proof.
  apply (texels_do_not_overlap 4096 4 4 4 3 3 3 3 3 3); lia.
Defined.

(** ** Degenerate channel counts and build modes *)

Lemma for_upto_nothing {V : Type} (n : Z) (body : Z -> M V unit) (st : state V) :
  n <= 0 -> for_upto n body st = Ok tt st.
Proof.
  intros Hn. unfold for_upto.
  replace (Z.to_nat n) with O by lia. reflexivity.
Qed.

(** X15. With [components <= 0] the loops of the float samplers do not run:
    a float sampler that returns has then read nothing and written nothing,
    and the memory, the stack and the logs are exactly as before the call,
    in every wrap mode. *)
Theorem float_sampler_without_components_does_nothing {V : Type} (zero : V)
    (with_asserts : bool) (s : sampler)
    (buffer output width height components : Z) (u v : float)
    (st st' : state V) :
  s = NearestBorderFl \/ s = NearestFl \/ s = NearestWrapFl ->
  components <= 0 ->
  call zero with_asserts s buffer output width height components u v st
    = Ok tt st' ->
  st' = st.
Proof.
  intros Hs Hc.
  destruct Hs as [-> | [-> | ->]]; cbn [call];
    unfold interpolate_nearest_border_fl, interpolate_nearest_fl,
           interpolate_nearest_wrap_fl; cbv zeta;
    rewrite assert_buffer;
    (destruct (with_asserts && (buffer =? 0)); [discriminate|]);
    rewrite defined_bind;
    match goal with
    | |- context [match F32.to_int ?a with _ => _ end] =>
        destruct (F32.to_int a) as [x|]; [|discriminate]
    end;
    rewrite defined_bind;
    match goal with
    | |- context [match F32.to_int ?a with _ => _ end] =>
        destruct (F32.to_int a) as [y|]; [|discriminate]
    end.
  - destruct ((x <? 0) || (x >=? width) || (y <? 0) || (y >=? height)).
    + rewrite for_upto_nothing by exact Hc. intros [= <-]. reflexivity.
    + intros Hrun. apply bind_inv in Hrun. destruct Hrun as (data & s1 & Hp & Hl).
      apply texel_ptr_pure in Hp. subst s1.
      rewrite for_upto_nothing in Hl by exact Hc. injection Hl as <-. reflexivity.
  - intros Hrun. apply bind_inv in Hrun. destruct Hrun as (data & s1 & Hp & Hl).
    apply texel_ptr_pure in Hp. subst s1.
    rewrite for_upto_nothing in Hl by exact Hc. injection Hl as <-. reflexivity.
  - intros Hrun. apply bind_inv in Hrun. destruct Hrun as ([] & s0 & Ha & Hrun).
    assert (s0 = st).
    { unfold BLI_assert in Ha. destruct (with_asserts && negb _);
        [discriminate | injection Ha as <-; reflexivity]. }
    subst s0.
    apply bind_inv in Hrun. destruct Hrun as (data & s1 & Hp & Hl).
    apply texel_ptr_pure in Hp. subst s1.
    rewrite for_upto_nothing in Hl by exact Hc. injection Hl as <-. reflexivity.
Qed.

Lemma float_sampler_without_components_does_nothing_witness :
  0 <= 0 /\
  exists st',
    call F32.zero true NearestFl 4096 16 4 4 0
         (F32.of_int 1) (F32.of_int 1) floats_4x4 = Ok tt st' /\
    st' = floats_4x4.
Proof.
  split; [lia|].
  exists floats_4x4.
  assert (Hrun : call F32.zero true NearestFl 4096 16 4 4 0
                      (F32.of_int 1) (F32.of_int 1) floats_4x4
                 = Ok tt floats_4x4) by reflexivity.
  split; [exact Hrun|].
  exact (float_sampler_without_components_does_nothing F32.zero true NearestFl
           4096 16 4 4 0 (F32.of_int 1) (F32.of_int 1) floats_4x4 floats_4x4
           (or_intror (or_introl eq_refl)) ltac:(lia) Hrun).
Defined.

(** X16. On a non-null buffer the assertions change nothing for the border
    and extend samplers: a debug build and a release build run exactly
    alike, from every state and for every coordinate.  (For the repeat
    samplers they differ when the wrapped index leaves the image.) *)
Theorem border_and_extend_ignore_the_build {V : Type} (zero : V) (s : sampler)
    (buffer output width height components : Z) (u v : float) (st : state V) :
  buffer <> 0 ->
  mode s = Border \/ mode s = Extend ->
  call zero true s buffer output width height components u v st
  = call zero false s buffer output width height components u v st.
Proof.
  intros Hb Hs.
  destruct s; cbn [mode] in Hs;
    try (destruct Hs as [Hs | Hs]; discriminate Hs); cbn [call];
    unfold interpolate_nearest_border_byte, interpolate_nearest_border_fl,
           interpolate_nearest_byte, interpolate_nearest_fl;
    rewrite !assert_buffer, (null_check_passes true buffer Hb); reflexivity.
Qed.

Lemma border_and_extend_ignore_the_build_witness :
  4096 <> 0 /\
  call (0 : uchar) true NearestByte 4096 16 4 4 4
       (F32.of_int 1) (F32.of_int 1) bytes_4x4
  = call (0 : uchar) false NearestByte 4096 16 4 4 4
         (F32.of_int 1) (F32.of_int 1) bytes_4x4.
Proof.
  split; [lia|].
  apply (border_and_extend_ignore_the_build (0 : uchar) NearestByte
           4096 16 4 4 4 (F32.of_int 1) (F32.of_int 1) bytes_4x4).
  - lia.
  - right. reflexivity.
Defined.
